(* ===================================================================== *)
(* qadence: the dispatch facade of qadence/execution.py                  *)
(*                                                                       *)
(* A shallow embedding of `run`, `sample` and `expectation` together     *)
(* with the Python machinery they rest on (functools.singledispatch,     *)
(* argument binding, torch.no_grad), and the properties of the           *)
(* specification that concern them.                                      *)
(* ===================================================================== *)

From stdpp Require Import gmap strings list fin_maps.
From Stdlib Require Import ZArith.

Set Warnings "-register-all".

Open Scope Z_scope.
Open Scope string_scope.
Open Scope list_scope.

(* --------------------------------------------------------------------- *)
(* 1. Data model                                                         *)
(* --------------------------------------------------------------------- *)

(** `qadence.backend.BackendName`.  The facade only names PYQTORCH (its
    default); PULSER is the pulse-level backend used by the test-suite. *)
Inductive BackendName := PYQTORCH | PULSER.

(** `qadence.utils.Endianness`. *)
Inductive Endianness := BIG | LITTLE.

(** `qadence.types.DiffMode`; the members used in the repository. *)
Inductive DiffMode := AD | GPSR.

(** A Python float literal, kept as the decimal it is written as:
    `3.14` is `{| mantissa := 314; exponent := -2 |}`. *)
Record PyFloat := { mantissa : Z; exponent : Z }.

(** Symbolic parameter expressions (sympy in the source): numeric
    literals, named parameters, and applied functions or operators. *)
Inductive Expr :=
| ENum (x : PyFloat)
| EParam (name : string)
| EApp (f : string) (args : list Expr).

(** How a composite block combines its children. *)
Inductive Composition := Chain | Kron.

(** Modelled from the spec: `qadence.blocks.AbstractBlock` is not part of
    the sources.  Section 3 of the specification gives its variants: a
    primitive gate (name, target qubits, optional parameter expression), a
    composite (ordered children, composed sequentially or in parallel) and
    an analog block (duration, amplitude, phase and detuning, acting on
    the qubits it addresses). *)
Inductive AbstractBlock :=
| PrimitiveBlock (name : string) (qubit_support : list nat)
    (parameter : option Expr)
| CompositeBlock (mode : Composition) (blocks : list AbstractBlock)
| AnalogBlock (qubit_support : list nat)
    (duration omega phase delta : Expr).

(** Every qubit index referenced by a leaf of the block tree. *)
Fixpoint qubit_support (b : AbstractBlock) : list nat :=
  match b with
  | PrimitiveBlock _ qs _ => qs
  | CompositeBlock _ bs => flat_map qubit_support bs
  | AnalogBlock qs _ _ _ _ => qs
  end.

(** Modelled from the spec: the property `block.n_qubits` read by the
    block overloads is not part of the sources.  Section 4.3 describes it
    as the block's highest referenced qubit index + 1; a block that
    references no qubit has none. *)
Definition n_qubits (b : AbstractBlock) : Z :=
  match qubit_support b with
  | [] => 0
  | qs => Z.of_nat (max_list qs) + 1
  end.

(** The objects of the collaborators the facade only passes around. *)
Class Carriers := {
  Tensor : Type;                (* torch.Tensor *)
  RegisterObj : Type;           (* qadence.register.Register *)
  QuantumCircuitObj : Type;     (* qadence.circuit.QuantumCircuit *)
  BackendConfiguration : Type;  (* qadence.backend.BackendConfiguration *)
  Backend : Type;               (* what backend_factory returns *)
  NativeCircuit : Type;         (* conv.circuit *)
  NativeObservable : Type;      (* conv.observable *)
  ParamDict : Type;             (* conv.params *)
  ParamValues : Type;           (* what conv.embedding_fn returns *)
  Samples : Type;               (* list[Counter] *)
  Exn : Type;                   (* exceptions raised inside collaborators *)
}.

Section PythonValues.
Context {C : Carriers}.

(** Python is dynamically typed: the facade receives arbitrary objects and
    inspects only the class of the first one. *)
Inductive Value :=
| VNone
| VBool (b : bool)
| VInt (n : Z)
| VFloat (x : PyFloat)
| VStr (s : string)
| VList (l : list Value)
| VDict (d : list (string * Value))
| VTensor (t : Tensor)
| VBackendName (n : BackendName)
| VEndianness (e : Endianness)
| VDiffMode (d : DiffMode)
| VBackendConfiguration (c : BackendConfiguration)
| VQuantumCircuit (c : QuantumCircuitObj)
| VRegister (r : RegisterObj)
| VBlock (b : AbstractBlock).

(** `type(x)` as an f-string prints it. *)
Definition type_repr (x : Value) : string :=
  match x with
  | VNone => "<class 'NoneType'>"
  | VBool _ => "<class 'bool'>"
  | VInt _ => "<class 'int'>"
  | VFloat _ => "<class 'float'>"
  | VStr _ => "<class 'str'>"
  | VList _ => "<class 'list'>"
  | VDict _ => "<class 'dict'>"
  | VTensor _ => "<class 'torch.Tensor'>"
  | VBackendName _ => "<enum 'BackendName'>"
  | VEndianness _ => "<enum 'Endianness'>"
  | VDiffMode _ => "<enum 'DiffMode'>"
  | VBackendConfiguration _ => "<class 'qadence.backend.BackendConfiguration'>"
  | VQuantumCircuit _ => "<class 'qadence.circuit.QuantumCircuit'>"
  | VRegister _ => "<class 'qadence.register.Register'>"
  | VBlock _ => "<class 'qadence.blocks.abstract.AbstractBlock'>"
  end.

(** Exceptions. *)
Inductive PyError :=
| ValueError (msg : string)   (* raised by the facade itself *)
| TypeError                   (* a call that does not bind to a signature *)
| Thrown (e : Exn).           (* raised inside a collaborator *)

Inductive Outcome (A : Type) :=
| Returned (a : A)
| Raised (e : PyError).
#[global] Arguments Returned {A} a.
#[global] Arguments Raised {A} e.

(** Every call the facade makes into a collaborator. *)
Inductive Call :=
| CallRegister (n_qubits : Value)
| CallQuantumCircuit (register : RegisterObj) (block : Value)
| CallBackendFactory (backend configuration : Value)
| CallConvert (bknd : Backend) (circuit : QuantumCircuitObj)
    (observable : option (list Value))
| CallEmbeddingFn (params : ParamDict) (values : Value)
| CallRun (bknd : Backend) (circuit : NativeCircuit)
    (param_values : ParamValues) (state endianness : Value)
| CallSample (bknd : Backend) (circuit : NativeCircuit)
    (param_values : ParamValues) (n_shots state endianness : Value)
| CallExpectation (bknd : Backend) (circuit : NativeCircuit)
    (observable : NativeObservable) (param_values : ParamValues)
    (state endianness : Value).

(** A call together with torch's gradient mode at the time it is made. *)
Record LogEntry := { call : Call; grad : bool }.

(** The part of the process state the facade reads or writes: torch's
    global gradient mode, and the calls made so far. *)
Record World := { grad_enabled : bool; trace : list LogEntry }.

Definition M (A : Type) : Type := World → Outcome A * World.

#[global] Instance M_ret : MRet M := λ A a w, (Returned a, w).

#[global] Instance M_bind : MBind M := λ A B f m w,
  match m w with
  | (Returned a, w') => f a w'
  | (Raised e, w') => (Raised e, w')
  end.

Definition raise {A} (e : PyError) : M A := λ w, (Raised e, w).

(** The world after one more recorded call. *)
Definition record (c : Call) (w : World) : World :=
  {| grad_enabled := grad_enabled w;
     trace := trace w ++ [ {| call := c; grad := grad_enabled w |} ] |}.

(** Calling a collaborator: the call is recorded, and its outcome may
    depend on whether gradients are being tracked. *)
Definition invoke {A} (c : Call) (f : bool → Outcome A) : M A := λ w,
  (f (grad_enabled w), record c w).

(** `with torch.no_grad(): body`.  `__enter__` saves the mode and switches
    tracking off; `__exit__` restores the saved mode, also when the body
    raises. *)
Definition no_grad {A} (body : M A) : M A := λ w,
  let prev := grad_enabled w in
  let '(r, w') := body {| grad_enabled := false; trace := trace w |} in
  (r, {| grad_enabled := prev; trace := trace w' |}).

End PythonValues.

(* --------------------------------------------------------------------- *)
(* 2. Collaborators                                                      *)
(* --------------------------------------------------------------------- *)

Section Facade.
Context {C : Carriers}.

(** What `bknd.convert` returns (`conv` in the source). *)
Record Conversion := {
  conv_circuit : NativeCircuit;
  conv_observable : NativeObservable;
  embedding_fn : ParamDict → Value → bool → Outcome ParamValues;
  conv_params : ParamDict;
}.

(** The imports of execution.py.  Each is a function of its arguments
    and, for the torch computations, of the gradient mode it runs in. *)
Class Collaborators := {
  Register_init : Value → Outcome RegisterObj;
  QuantumCircuit_init : RegisterObj → Value → Outcome QuantumCircuitObj;
  backend_factory : Value → Value → Outcome Backend;
  bknd_convert :
    Backend → QuantumCircuitObj → option (list Value) → bool →
    Outcome Conversion;
  bknd_run :
    Backend → NativeCircuit → ParamValues → Value → Value → bool →
    Outcome Tensor;
  bknd_sample :
    Backend → NativeCircuit → ParamValues → Value → Value → Value → bool →
    Outcome Samples;
  bknd_expectation :
    Backend → NativeCircuit → NativeObservable → ParamValues → Value →
    Value → bool → Outcome Tensor;
  requires_grad : Tensor → bool;
}.

Context {K : Collaborators}.

Definition Register (n_qubits : Value) : M RegisterObj :=
  invoke (CallRegister n_qubits) (λ _, Register_init n_qubits).

Definition QuantumCircuit (register : RegisterObj) (block : Value)
  : M QuantumCircuitObj :=
  invoke (CallQuantumCircuit register block)
         (λ _, QuantumCircuit_init register block).

Definition call_backend_factory (backend configuration : Value) : M Backend :=
  invoke (CallBackendFactory backend configuration)
         (λ _, backend_factory backend configuration).

Definition call_convert (bknd : Backend) (circuit : QuantumCircuitObj)
    (observable : option (list Value)) : M Conversion :=
  invoke (CallConvert bknd circuit observable)
         (bknd_convert bknd circuit observable).

Definition call_embedding_fn (conv : Conversion) (params : ParamDict)
    (values : Value) : M ParamValues :=
  invoke (CallEmbeddingFn params values) (embedding_fn conv params values).

Definition call_run (bknd : Backend) (circuit : NativeCircuit)
    (param_values : ParamValues) (state endianness : Value) : M Tensor :=
  invoke (CallRun bknd circuit param_values state endianness)
         (bknd_run bknd circuit param_values state endianness).

Definition call_sample (bknd : Backend) (circuit : NativeCircuit)
    (param_values : ParamValues) (n_shots state endianness : Value)
  : M Samples :=
  invoke (CallSample bknd circuit param_values n_shots state endianness)
         (bknd_sample bknd circuit param_values n_shots state endianness).

Definition call_expectation (bknd : Backend) (circuit : NativeCircuit)
    (observable : NativeObservable) (param_values : ParamValues)
    (state endianness : Value) : M Tensor :=
  invoke (CallExpectation bknd circuit observable param_values state
            endianness)
         (bknd_expectation bknd circuit observable param_values state
            endianness).

(* --------------------------------------------------------------------- *)
(* 3. Python argument binding                                            *)
(* --------------------------------------------------------------------- *)

(** Binding the call `f(first, *pos, **kw)` to a signature
    `def f(first, p1=d1, ..., pn=dn)`.  Positional arguments fill p1, p2,
    ... from the left; a keyword must name a parameter that is still
    unfilled (anything else is a TypeError: too many positional arguments,
    an unexpected keyword, or several values for one parameter).  The
    result maps every filled parameter to its argument. *)
Definition binds (names : list string) (pos : list Value)
    (kw : gmap string Value) : bool :=
  bool_decide (length pos ≤ length names)%nat
  && bool_decide (map_Forall (λ k _, k ∈ drop (length pos) names) kw).

Definition bind_defaults (names : list string) (pos : list Value)
    (kw : gmap string Value) : M (gmap string Value) :=
  if binds names pos kw
  then mret (list_to_map (zip names pos) ∪ kw)
  else raise TypeError.

(** Binding the parameters `names` of `def f(first, p1, ..., pn, **kwargs)`,
    none of which has a default: each takes the next positional argument
    or else the keyword of its name; the keywords left over are kwargs. *)
Fixpoint bind_required (names : list string) (pos : list Value)
    (kw : gmap string Value) : option (list Value * gmap string Value) :=
  match names with
  | [] =>
      match pos with
      | [] => Some ([], kw)
      | _ :: _ => None
      end
  | p :: names' =>
      match pos with
      | v :: pos' =>
          match kw !! p with
          | Some _ => None
          | None =>
              '(vs, kwargs) ← bind_required names' pos' kw;
              Some (v :: vs, kwargs)
          end
      | [] =>
          v ← kw !! p;
          '(vs, kwargs) ← bind_required names' [] (delete p kw);
          Some (v :: vs, kwargs)
      end
  end.

Definition bind_kwargs (first : string) (names : list string)
    (pos : list Value) (kw : gmap string Value)
  : M (list Value * gmap string Value) :=
  match kw !! first with
  | Some _ => raise TypeError
  | None =>
      match bind_required names pos kw with
      | Some r => mret r
      | None => raise TypeError
      end
  end.

(** A parameter's argument, or its default. *)
Definition arg (bound : gmap string Value) (name : string) (dflt : Value)
  : Value :=
  default dflt (bound !! name).

(* --------------------------------------------------------------------- *)
(* 4. qadence/execution.py                                               *)
(* --------------------------------------------------------------------- *)

(** `observable if isinstance(observable, list) else [observable]` *)
Definition as_list (observable : Value) : list Value :=
  match observable with
  | VList l => l
  | o => [o]
  end.

(** `diff_mode is None` *)
Definition is_None (v : Value) : bool :=
  match v with
  | VNone => true
  | _ => false
  end.

(** ** run *)

Definition run_params : list string :=
  ["values"; "state"; "backend"; "endianness"; "configuration"].

(** The undecorated `run`, reached for every class without an overload.
    `*args` takes all further positional arguments, which leaves the
    options keyword-only. *)
Definition run_object (x : Value) (pos : list Value)
    (kw : gmap string Value) : M Tensor :=
  _ ← bind_defaults run_params [] kw;
  raise (ValueError ("Cannot run " +:+ type_repr x)).

(** `@run.register` for `circuit: QuantumCircuit`. *)
Definition run_QuantumCircuit (circuit : QuantumCircuitObj)
    (pos : list Value) (kw : gmap string Value) : M Tensor :=
  a ← bind_defaults run_params pos kw;
  let values := arg a "values" (VDict []) in
  let state := arg a "state" VNone in
  let backend := arg a "backend" (VBackendName PYQTORCH) in
  let endianness := arg a "endianness" (VEndianness BIG) in
  let configuration := arg a "configuration" VNone in
  bknd ← call_backend_factory backend configuration;
  conv ← call_convert bknd circuit None;
  no_grad (
    param_values ← call_embedding_fn conv (conv_params conv) values;
    call_run bknd (conv_circuit conv) param_values state endianness).

(** `@run.register` for `register: Register`.  The nested `run` receives
    a QuantumCircuit and so resolves to the overload above. *)
Definition run_Register (register : RegisterObj) (pos : list Value)
    (kw : gmap string Value) : M Tensor :=
  '(args, kwargs) ← bind_kwargs "register" ["block"] pos kw;
  match args with
  | [block] =>
      circuit ← QuantumCircuit register block;
      run_QuantumCircuit circuit [] kwargs
  | _ => raise TypeError
  end.

(** `@run.register` for `n_qubits: int`; the nested `run` receives a
    Register. *)
Definition run_int (n_qubits : Value) (pos : list Value)
    (kw : gmap string Value) : M Tensor :=
  '(args, kwargs) ← bind_kwargs "n_qubits" ["block"] pos kw;
  match args with
  | [block] =>
      register ← Register n_qubits;
      run_Register register [block] kwargs
  | _ => raise TypeError
  end.

(** `@run.register` for `block: AbstractBlock`. *)
Definition run_AbstractBlock (block : AbstractBlock) (pos : list Value)
    (kw : gmap string Value) : M Tensor :=
  '(_, kwargs) ← bind_kwargs "block" [] pos kw;
  register ← Register (VInt (n_qubits block));
  run_Register register [VBlock block] kwargs.

(** `functools.singledispatch`: the implementation is chosen by the class
    of the first positional argument, along its method resolution order
    (`bool` is a subclass of `int`); a call without one is a TypeError. *)
Definition run (args : list Value) (kw : gmap string Value) : M Tensor :=
  match args with
  | [] => raise TypeError
  | VQuantumCircuit c :: pos => run_QuantumCircuit c pos kw
  | VRegister r :: pos => run_Register r pos kw
  | VInt n :: pos => run_int (VInt n) pos kw
  | VBool b :: pos => run_int (VBool b) pos kw
  | VBlock b :: pos => run_AbstractBlock b pos kw
  | x :: pos => run_object x pos kw
  end.

(** ** sample *)

Definition sample_params : list string :=
  ["values"; "state"; "n_shots"; "backend"; "endianness"; "configuration"].

Definition sample_object (x : Value) (pos : list Value)
    (kw : gmap string Value) : M Samples :=
  _ ← bind_defaults sample_params [] kw;
  raise (ValueError ("Cannot sample from " +:+ type_repr x)).

Definition sample_QuantumCircuit (circuit : QuantumCircuitObj)
    (pos : list Value) (kw : gmap string Value) : M Samples :=
  a ← bind_defaults sample_params pos kw;
  let values := arg a "values" (VDict []) in
  let state := arg a "state" VNone in
  let n_shots := arg a "n_shots" (VInt 100) in
  let backend := arg a "backend" (VBackendName PYQTORCH) in
  let endianness := arg a "endianness" (VEndianness BIG) in
  let configuration := arg a "configuration" VNone in
  bknd ← call_backend_factory backend configuration;
  conv ← call_convert bknd circuit None;
  param_values ← call_embedding_fn conv (conv_params conv) values;
  call_sample bknd (conv_circuit conv) param_values n_shots state endianness.

Definition sample_Register (register : RegisterObj) (pos : list Value)
    (kw : gmap string Value) : M Samples :=
  '(args, kwargs) ← bind_kwargs "register" ["block"] pos kw;
  match args with
  | [block] =>
      circuit ← QuantumCircuit register block;
      sample_QuantumCircuit circuit [] kwargs
  | _ => raise TypeError
  end.

Definition sample_int (n_qubits : Value) (pos : list Value)
    (kw : gmap string Value) : M Samples :=
  '(args, kwargs) ← bind_kwargs "n_qubits" ["block"] pos kw;
  match args with
  | [block] =>
      register ← Register n_qubits;
      sample_Register register [block] kwargs
  | _ => raise TypeError
  end.

Definition sample_AbstractBlock (block : AbstractBlock) (pos : list Value)
    (kw : gmap string Value) : M Samples :=
  '(_, kwargs) ← bind_kwargs "block" [] pos kw;
  reg ← Register (VInt (n_qubits block));
  sample_Register reg [VBlock block] kwargs.

Definition sample (args : list Value) (kw : gmap string Value) : M Samples :=
  match args with
  | [] => raise TypeError
  | VQuantumCircuit c :: pos => sample_QuantumCircuit c pos kw
  | VRegister r :: pos => sample_Register r pos kw
  | VInt n :: pos => sample_int (VInt n) pos kw
  | VBool b :: pos => sample_int (VBool b) pos kw
  | VBlock b :: pos => sample_AbstractBlock b pos kw
  | x :: pos => sample_object x pos kw
  end.

(** ** expectation *)

Definition expectation_params : list string :=
  ["observable"; "values"; "state"; "backend"; "diff_mode"; "endianness";
   "configuration"].

(** The undecorated `expectation`: `observable` has no default. *)
Definition expectation_object (x : Value) (pos : list Value)
    (kw : gmap string Value) : M Tensor :=
  a ← bind_defaults expectation_params pos kw;
  match a !! "observable" with
  | None => raise TypeError
  | Some _ => raise (ValueError ("Cannot execute " +:+ type_repr x))
  end.

Definition expectation_QuantumCircuit (circuit : QuantumCircuitObj)
    (pos : list Value) (kw : gmap string Value) : M Tensor :=
  a ← bind_defaults expectation_params pos kw;
  match a !! "observable" with
  | None => raise TypeError
  | Some observable =>
      let values := arg a "values" (VDict []) in
      let state := arg a "state" VNone in
      let backend := arg a "backend" (VBackendName PYQTORCH) in
      let diff_mode := arg a "diff_mode" VNone in
      let endianness := arg a "endianness" (VEndianness BIG) in
      let configuration := arg a "configuration" VNone in
      let observable := as_list observable in
      bknd ← call_backend_factory backend configuration;
      conv ← call_convert bknd circuit (Some observable);
      let _expectation : M Tensor :=
        param_values ← call_embedding_fn conv (conv_params conv) values;
        call_expectation bknd (conv_circuit conv) (conv_observable conv)
          param_values state endianness in
      if is_None diff_mode then no_grad _expectation else _expectation
  end.

Definition expectation_Register (register : RegisterObj) (pos : list Value)
    (kw : gmap string Value) : M Tensor :=
  '(args, kwargs) ← bind_kwargs "register" ["block"; "observable"] pos kw;
  match args with
  | [block; observable] =>
      circuit ← QuantumCircuit register block;
      expectation_QuantumCircuit circuit [observable] kwargs
  | _ => raise TypeError
  end.

Definition expectation_int (n_qubits : Value) (pos : list Value)
    (kw : gmap string Value) : M Tensor :=
  '(args, kwargs) ← bind_kwargs "n_qubits" ["block"; "observable"] pos kw;
  match args with
  | [block; observable] =>
      reg ← Register n_qubits;
      circuit ← QuantumCircuit reg block;
      expectation_QuantumCircuit circuit [observable] kwargs
  | _ => raise TypeError
  end.

Definition expectation_AbstractBlock (block : AbstractBlock)
    (pos : list Value) (kw : gmap string Value) : M Tensor :=
  '(args, kwargs) ← bind_kwargs "block" ["observable"] pos kw;
  match args with
  | [observable] =>
      reg ← Register (VInt (n_qubits block));
      circuit ← QuantumCircuit reg (VBlock block);
      expectation_QuantumCircuit circuit [observable] kwargs
  | _ => raise TypeError
  end.

Definition expectation (args : list Value) (kw : gmap string Value)
  : M Tensor :=
  match args with
  | [] => raise TypeError
  | VQuantumCircuit c :: pos => expectation_QuantumCircuit c pos kw
  | VRegister r :: pos => expectation_Register r pos kw
  | VInt n :: pos => expectation_int (VInt n) pos kw
  | VBool b :: pos => expectation_int (VBool b) pos kw
  | VBlock b :: pos => expectation_AbstractBlock b pos kw
  | x :: pos => expectation_object x pos kw
  end.

End Facade.

(* --------------------------------------------------------------------- *)
(* 5. A small executable instance                                        *)
(* --------------------------------------------------------------------- *)

(** Stand-ins for the collaborators, on which the facade can be run:
    registers and circuits are their qubit counts, a backend is its name,
    and a tensor carries the gradient mode it was computed in. *)
Module Stub.

Definition carriers : Carriers := {|
  Tensor := Z * bool;
  RegisterObj := Z;
  QuantumCircuitObj := Z;
  BackendConfiguration := unit;
  Backend := BackendName;
  NativeCircuit := Z;
  NativeObservable := nat;
  ParamDict := unit;
  ParamValues := nat;
  Samples := Z;
  Exn := string;
|}.
#[local] Existing Instance carriers.

Definition stub_Register (n_qubits : Value) : Outcome Z :=
  match n_qubits with
  | VInt n => Returned n
  | VBool b => Returned (Z.b2z b)
  | _ => Raised (Thrown "support")
  end.

Definition stub_QuantumCircuit (register : Z) (block : Value) : Outcome Z :=
  match block with
  | VBlock b =>
      if (n_qubits b <=? register)%Z then Returned register
      else Raised (Thrown "qubit support")
  | _ => Raised (Thrown "block")
  end.

Definition stub_factory (backend configuration : Value)
  : Outcome BackendName :=
  match backend with
  | VBackendName n => Returned n
  | _ => Raised (Thrown "backend")
  end.

Definition stub_embedding_fn (_ : unit) (values : Value) (_ : bool)
  : Outcome nat :=
  match values with
  | VDict d => Returned (length d)
  | _ => Raised (Thrown "values")
  end.

Definition stub_convert (_ : BackendName) (circuit : Z)
    (observable : option (list Value)) (_ : bool) : Outcome Conversion :=
  Returned {| conv_circuit := circuit;
              conv_observable := length (default [] observable);
              embedding_fn := stub_embedding_fn;
              conv_params := tt |}.

Definition stub_sample (n_shots : Value) : Outcome Z :=
  match n_shots with
  | VInt n => Returned n
  | _ => Raised (Thrown "n_shots")
  end.

Definition collaborators : Collaborators := {|
  Register_init := stub_Register;
  QuantumCircuit_init := stub_QuantumCircuit;
  backend_factory := stub_factory;
  bknd_convert := stub_convert;
  bknd_run _ circuit param_values _ _ g :=
    Returned (circuit + Z.of_nat param_values, g);
  bknd_sample _ _ _ n_shots _ _ _ := stub_sample n_shots;
  bknd_expectation _ circuit observable _ _ _ g :=
    Returned (circuit + Z.of_nat observable, g);
  requires_grad t := t.2;
|}.

(** torch starts with gradient tracking switched on. *)
Definition w0 : World := {| grad_enabled := true; trace := [] |}.

(** The caller has switched tracking off (`torch.set_grad_enabled(False)`
    or an enclosing `with torch.no_grad()`). *)
Definition w_off : World := {| grad_enabled := false; trace := [] |}.

Definition X0 : AbstractBlock := PrimitiveBlock "X" [0%nat] None.
Definition Z1 : AbstractBlock := PrimitiveBlock "Z" [1%nat] None.
Definition pi : PyFloat := {| mantissa := 314; exponent := -2 |}.

End Stub.

(* --------------------------------------------------------------------- *)
(* 6. Vocabulary of the properties                                       *)
(* --------------------------------------------------------------------- *)

Section Vocabulary.
Context {C : Carriers}.

(** The classes for which the three operations register an overload. *)
Definition has_overload (x : Value) : bool :=
  match x with
  | VQuantumCircuit _ | VRegister _ | VInt _ | VBool _ | VBlock _ => true
  | _ => false
  end.

(** Building the canonical circuit, as opposed to work on a backend. *)
Definition is_construction (c : Call) : bool :=
  match c with
  | CallRegister _ | CallQuantumCircuit _ _ => true
  | _ => false
  end.

(** The calls that reach the tensor computations of a backend. *)
Definition is_tensor_call (c : Call) : bool :=
  match c with
  | CallEmbeddingFn _ _ | CallRun _ _ _ _ _ | CallSample _ _ _ _ _ _
  | CallExpectation _ _ _ _ _ _ => true
  | _ => false
  end.

Definition backend_calls (t : list LogEntry) : list LogEntry :=
  filter (λ e, is_construction (call e) = false) t.

(** [Emits P m]: whatever the world, [m] only appends to the trace, leaves
    the gradient mode as it found it, and every call it records satisfies
    [P g], where [g] is the gradient mode [m] was started in. *)
Definition Emits {A} (P : bool → LogEntry → Prop) (m : M A) : Prop :=
  ∀ w, ∃ d,
    trace (m w).2 = trace w ++ d
    ∧ grad_enabled (m w).2 = grad_enabled w
    ∧ Forall (P (grad_enabled w)) d.

(** What the trace records when the tensor calls run in gradient mode
    [mode g] and every other call in the caller's mode [g]. *)
Definition tensor_calls_at (mode : bool → bool) (g : bool) (e : LogEntry)
  : Prop :=
  grad e = if is_tensor_call (call e) then mode g else g.

(** Only tensor calls, each in the current gradient mode. *)
Definition tensor_body (g : bool) (e : LogEntry) : Prop :=
  is_tensor_call (call e) = true ∧ grad e = g.

(** [Framed m]: [m] does not look at the trace; started on a longer trace
    it behaves the same and appends the same calls. *)
Definition Framed {A} (m : M A) : Prop :=
  ∀ g t,
    m {| grad_enabled := g; trace := t |} =
    let '(r, w') := m {| grad_enabled := g; trace := [] |} in
    (r, {| grad_enabled := grad_enabled w'; trace := t ++ trace w' |}).

(** Whether `(x, *pos, **kw)` fits the signature of the undecorated
    `expectation`, whose parameter `observable` has no default. *)
Definition observable_binds (pos : list Value) (kw : gmap string Value)
  : bool :=
  binds expectation_params pos kw
  && bool_decide
       (is_Some ((list_to_map (zip expectation_params pos) ∪ kw)
                   !! "observable")).

(** Two runs agree when they return or raise the same, leave the same
    gradient mode, and made the same calls into the backend. *)
Definition same_outcome {A} (x y : Outcome A * World) : Prop :=
  x.1 = y.1
  ∧ grad_enabled x.2 = grad_enabled y.2
  ∧ backend_calls (trace x.2) = backend_calls (trace y.2).

(** The four input shapes, as their positional arguments. *)
Inductive Shape :=
| OfCircuit (circuit : QuantumCircuitObj)
| OfRegister (register : RegisterObj) (block : Value)
| OfInt (n_qubits : Z) (block : Value)
| OfBlock (block : AbstractBlock).

Definition positional (s : Shape) : list Value :=
  match s with
  | OfCircuit c => [VQuantumCircuit c]
  | OfRegister r b => [VRegister r; b]
  | OfInt n b => [VInt n; b]
  | OfBlock b => [VBlock b]
  end.

(** The defaults of the keyword options, supplied explicitly. *)
Definition run_defaults : gmap string Value :=
  {[ "values" := VDict [];
     "state" := VNone;
     "backend" := VBackendName PYQTORCH;
     "endianness" := VEndianness BIG;
     "configuration" := VNone ]}.

Definition sample_defaults : gmap string Value :=
  <["n_shots" := VInt 100]> run_defaults.

Definition expectation_defaults : gmap string Value :=
  <["diff_mode" := VNone]> run_defaults.

End Vocabulary.

Section OutcomeVocabulary.
Context {C : Carriers} {K : Collaborators}.

Definition entry (c : Call) (g : bool) : LogEntry :=
  {| call := c; grad := g |}.

(** The world once the calls [d] have been made and the gradient mode is
    back to what it was. *)
Definition after (w : World) (d : list LogEntry) : World :=
  {| grad_enabled := grad_enabled w; trace := trace w ++ d |}.

(** `bknd.run`, `bknd.sample` and `bknd.expectation`. *)
Definition is_operation (c : Call) : bool :=
  match c with
  | CallRun _ _ _ _ _ | CallSample _ _ _ _ _ _
  | CallExpectation _ _ _ _ _ _ => true
  | _ => false
  end.

Definition no_operation (_ : bool) (e : LogEntry) : Prop :=
  is_operation (call e) = false.

(** [r] is what the recorded call gave: the call is one of `bknd.run`
    (`bknd.sample`, `bknd.expectation`) and, on the arguments and in the
    gradient mode recorded, the backend returned or raised [r]. *)
Definition replays_run (e : LogEntry) (r : Outcome Tensor) : Prop :=
  match call e with
  | CallRun bknd circuit param_values state endianness =>
      bknd_run bknd circuit param_values state endianness (grad e) = r
  | _ => False
  end.

Definition replays_sample (e : LogEntry) (r : Outcome Samples) : Prop :=
  match call e with
  | CallSample bknd circuit param_values n_shots state endianness =>
      bknd_sample bknd circuit param_values n_shots state endianness
        (grad e) = r
  | _ => False
  end.

Definition replays_expectation (e : LogEntry) (r : Outcome Tensor) : Prop :=
  match call e with
  | CallExpectation bknd circuit observable param_values state endianness =>
      bknd_expectation bknd circuit observable param_values state
        endianness (grad e) = r
  | _ => False
  end.

(** [Concludes R m]: [m] hands the gradient mode back and either raises
    without having called a backend operation, or calls one exactly once,
    as its last call, and ends as that call did. *)
Definition Concludes {A} (R : LogEntry → Outcome A → Prop) (m : M A)
  : Prop :=
  ∀ w, ∃ d,
    (m w).2 = after w d
    ∧ ((Forall (no_operation true) d ∧ ∃ err, (m w).1 = Raised err)
       ∨ ∃ d' e, d = d' ++ [e] ∧ Forall (no_operation true) d'
                 ∧ R e (m w).1).

(** [Rejects m]: [m] raises, and no call into a backend was made. *)
Definition Rejects {A} (m : M A) : Prop :=
  ∀ w, ∃ err,
    (m w).1 = Raised err
    ∧ backend_calls (trace (m w).2) = backend_calls (trace w).

End OutcomeVocabulary.

(** The stand-ins again, less permissive: a register needs a positive
    qubit count and `convert` refuses circuits of more than 30 qubits. *)
Module StrictStub.
Import Stub.
#[local] Existing Instance carriers.

Definition strict_Register (n_qubits : Value) : Outcome Z :=
  match n_qubits with
  | VInt n => if (0 <? n)%Z then Returned n else Raised (Thrown "support")
  | VBool true => Returned 1
  | _ => Raised (Thrown "support")
  end.

Definition strict_convert (bknd : BackendName) (circuit : Z)
    (observable : option (list Value)) (g : bool) : Outcome Conversion :=
  if (30 <? circuit)%Z then Raised (Thrown "too many qubits")
  else stub_convert bknd circuit observable g.

Definition collaborators : Collaborators := {|
  Register_init := strict_Register;
  QuantumCircuit_init := stub_QuantumCircuit;
  backend_factory := stub_factory;
  bknd_convert := strict_convert;
  bknd_run _ circuit param_values _ _ g :=
    Returned (circuit + Z.of_nat param_values, g);
  bknd_sample _ _ _ n_shots _ _ _ := stub_sample n_shots;
  bknd_expectation _ circuit observable _ _ _ g :=
    Returned (circuit + Z.of_nat observable, g);
  requires_grad t := t.2;
|}.

End StrictStub.

(* ===================================================================== *)
(* Properties                                                            *)
(* ===================================================================== *)

(* --------------------------------------------------------------------- *)
(* 7. Reasoning about facade computations                                *)
(* --------------------------------------------------------------------- *)

Section MonadFacts.
Context {C : Carriers}.

Lemma bind_returned {A B} (m : M A) (f : A → M B) w a w' :
  m w = (Returned a, w') → (m ≫= f) w = f a w'.
Proof. intros E. unfold mbind, M_bind. by rewrite E. Qed.

Lemma invoke_eq {A} c (f : bool → Outcome A) w :
  invoke c f w = (f (grad_enabled w), record c w).
Proof. reflexivity. Qed.

End MonadFacts.

Section BindingFacts.
Context {C : Carriers}.

Lemma bind_defaults_eq names pos kw w :
  bind_defaults names pos kw w =
  if binds names pos kw
  then (Returned (list_to_map (zip names pos) ∪ kw), w)
  else (Raised TypeError, w).
Proof. unfold bind_defaults. by case_match. Qed.

End BindingFacts.

Section ProgramLogic.
Context {C : Carriers}.

Lemma Emits_ret {A} P (a : A) : Emits P (mret a).
Proof. intros w. exists []. by rewrite app_nil_r. Qed.

Lemma Emits_raise {A} P e : Emits P (raise (A:=A) e).
Proof. intros w. exists []. by rewrite app_nil_r. Qed.

Lemma Emits_invoke {A} (P : bool → LogEntry → Prop) c (f : bool → Outcome A) :
  (∀ g, P g {| call := c; grad := g |}) → Emits P (invoke c f).
Proof.
  intros HP w. exists [ {| call := c; grad := grad_enabled w |} ].
  repeat split; [|done..]. by constructor.
Qed.

Lemma Emits_bind {A B} P (m : M A) (f : A → M B) :
  Emits P m → (∀ a, Emits P (f a)) → Emits P (m ≫= f).
Proof.
  intros Hm Hf w. destruct (Hm w) as (d1 & Ht1 & Hg1 & HP1).
  unfold mbind, M_bind. destruct (m w) as [[a|e] w1]; simpl in *.
  - destruct (Hf a w1) as (d2 & Ht2 & Hg2 & HP2).
    exists (d1 ++ d2). rewrite Ht2, Ht1, Hg2, Hg1, app_assoc.
    repeat split. apply Forall_app. split; [done|]. by rewrite <- Hg1.
  - by exists d1.
Qed.

Lemma Emits_no_grad {A} (Q : bool → LogEntry → Prop) (body : M A) :
  Emits Q body → Emits (λ _, Q false) (no_grad body).
Proof.
  intros Hb w. unfold no_grad.
  destruct (Hb {| grad_enabled := false; trace := trace w |})
    as (d & Ht & _ & HQ).
  destruct (body _) as [r w']. simpl in *. by exists d.
Qed.

Lemma Emits_mono {A} (P Q : bool → LogEntry → Prop) (m : M A) :
  (∀ g e, P g e → Q g e) → Emits P m → Emits Q m.
Proof.
  intros HPQ Hm w. destruct (Hm w) as (d & ? & ? & HP).
  exists d. repeat split; [done..|]. eapply Forall_impl; [done|]. apply HPQ.
Qed.

Lemma after_nil w : after w [] = w.
Proof. destruct w. unfold after. simpl. by rewrite app_nil_r. Qed.

Lemma after_after w d d' : after (after w d) d' = after w (d ++ d').
Proof. unfold after. simpl. by rewrite app_assoc. Qed.

(** [Emits] in terms of [after]. *)
Lemma Emits_after {A} P (m : M A) w :
  Emits P m → ∃ d, (m w).2 = after w d ∧ Forall (P (grad_enabled w)) d.
Proof.
  intros Hm. destruct (Hm w) as (d & Ht & Hg & HP). exists d.
  split; [|done]. destruct (m w).2. unfold after. simpl in *. congruence.
Qed.

Lemma Emits_bind_defaults P names pos kw :
  Emits P (bind_defaults names pos kw).
Proof.
  unfold bind_defaults. case_match; [apply Emits_ret | apply Emits_raise].
Qed.

Lemma Emits_bind_kwargs P first names pos kw :
  Emits P (bind_kwargs first names pos kw).
Proof.
  unfold bind_kwargs. repeat case_match;
    first [apply Emits_ret | apply Emits_raise].
Qed.

Lemma Framed_ret {A} (a : A) : Framed (mret a).
Proof. intros g t. unfold mret, M_ret. simpl. by rewrite app_nil_r. Qed.

Lemma Framed_raise {A} e : Framed (raise (A:=A) e).
Proof. intros g t. unfold raise. simpl. by rewrite app_nil_r. Qed.

Lemma Framed_invoke {A} c (f : bool → Outcome A) : Framed (invoke c f).
Proof. by intros g t. Qed.

Lemma Framed_bind {A B} (m : M A) (f : A → M B) :
  Framed m → (∀ a, Framed (f a)) → Framed (m ≫= f).
Proof.
  intros Hm Hf g t. unfold mbind, M_bind. rewrite (Hm g t).
  destruct (m {| grad_enabled := g; trace := [] |}) as [[a|e] [g1 d1]];
    simpl; [|done].
  rewrite (Hf a g1 (t ++ d1)), (Hf a g1 d1).
  destruct (f a {| grad_enabled := g1; trace := [] |}) as [r [g2 d2]].
  simpl. by rewrite app_assoc.
Qed.

Lemma Framed_no_grad {A} (body : M A) : Framed body → Framed (no_grad body).
Proof.
  intros Hb g t. unfold no_grad. simpl. rewrite (Hb false t).
  by destruct (body {| grad_enabled := false; trace := [] |}) as [r [g1 d1]].
Qed.

Lemma Framed_bind_defaults names pos kw : Framed (bind_defaults names pos kw).
Proof.
  unfold bind_defaults. case_match; [apply Framed_ret | apply Framed_raise].
Qed.

Lemma Framed_bind_kwargs first names pos kw :
  Framed (bind_kwargs first names pos kw).
Proof.
  unfold bind_kwargs. repeat case_match;
    first [apply Framed_ret | apply Framed_raise].
Qed.

End ProgramLogic.

Ltac step_bind lem := apply lem; [| intros ?].

Ltac framed_using tac :=
  repeat first
    [ tac
    | apply Framed_ret | apply Framed_raise | apply Framed_invoke
    | apply Framed_bind_defaults | apply Framed_bind_kwargs
    | apply Framed_no_grad | step_bind (@Framed_bind _)
    | case_match ].

Ltac framed := framed_using fail.

Ltac emits_using tac :=
  repeat first
    [ tac
    | apply Emits_ret | apply Emits_raise
    | apply Emits_bind_defaults | apply Emits_bind_kwargs
    | apply Emits_invoke; intros ?; first [done | by split]
    | step_bind (@Emits_bind _)
    | case_match ].

Ltac emits := emits_using fail.

Section FacadeFacts.
Context {C : Carriers} {K : Collaborators}.

Lemma Framed_run_QuantumCircuit c pos kw :
  Framed (run_QuantumCircuit c pos kw).
Proof. unfold run_QuantumCircuit. framed. Qed.

Lemma Framed_sample_QuantumCircuit c pos kw :
  Framed (sample_QuantumCircuit c pos kw).
Proof. unfold sample_QuantumCircuit. framed. Qed.

Lemma Framed_expectation_QuantumCircuit c pos kw :
  Framed (expectation_QuantumCircuit c pos kw).
Proof. unfold expectation_QuantumCircuit. framed. Qed.

Lemma Emits_tensor_body_no_grad {A} (body : M A) :
  Emits tensor_body body →
  Emits (tensor_calls_at (λ _, false)) (no_grad body).
Proof.
  intros Hb. eapply Emits_mono; [|by apply Emits_no_grad].
  intros g e [Hc Hg]. unfold tensor_calls_at. by rewrite Hc.
Qed.

Lemma Emits_tensor_body_ambient {A} (body : M A) :
  Emits tensor_body body → Emits (tensor_calls_at (λ g, g)) body.
Proof.
  apply Emits_mono. intros g e [Hc Hg]. unfold tensor_calls_at.
  by rewrite Hc.
Qed.

Lemma Emits_bind_defaults_then {A} P names pos kw
    (f : gmap string Value → M A) :
  (binds names pos kw = true →
   Emits P (f (list_to_map (zip names pos) ∪ kw))) →
  Emits P (bind_defaults names pos kw ≫= f).
Proof.
  intros Hf w. unfold mbind, M_bind. rewrite bind_defaults_eq.
  destruct (binds names pos kw).
  - by apply Hf.
  - exists []. by rewrite app_nil_r.
Qed.

Lemma Emits_run_QuantumCircuit c pos kw :
  Emits (tensor_calls_at (λ _, false)) (run_QuantumCircuit c pos kw).
Proof.
  unfold run_QuantumCircuit.
  do 3 (step_bind (@Emits_bind _); [emits|]).
  apply Emits_tensor_body_no_grad. emits.
Qed.

Lemma Emits_run args kw :
  Emits (tensor_calls_at (λ _, false)) (run args kw).
Proof.
  unfold run, run_object, run_AbstractBlock, run_int, run_Register.
  emits_using ltac:(apply Emits_run_QuantumCircuit).
Qed.

Lemma Emits_sample_QuantumCircuit c pos kw :
  Emits (tensor_calls_at (λ g, g)) (sample_QuantumCircuit c pos kw).
Proof. unfold sample_QuantumCircuit. emits. Qed.

Lemma Emits_sample args kw :
  Emits (tensor_calls_at (λ g, g)) (sample args kw).
Proof.
  unfold sample, sample_object, sample_AbstractBlock, sample_int,
    sample_Register.
  emits_using ltac:(apply Emits_sample_QuantumCircuit).
Qed.

Lemma Emits_expectation_QuantumCircuit c pos kw :
  Emits (tensor_calls_at (λ g,
           if is_None (arg (list_to_map (zip expectation_params pos) ∪ kw)
                           "diff_mode" VNone)
           then false else g))
        (expectation_QuantumCircuit c pos kw).
Proof.
  unfold expectation_QuantumCircuit.
  apply Emits_bind_defaults_then. intros _. cbv zeta.
  destruct (_ !! "observable") as [observable|]; [|apply Emits_raise].
  destruct (is_None _).
  - do 2 (step_bind (@Emits_bind _); [emits|]).
    apply Emits_tensor_body_no_grad. emits.
  - do 2 (step_bind (@Emits_bind _); [emits|]).
    apply Emits_tensor_body_ambient. emits.
Qed.

End FacadeFacts.

(* --------------------------------------------------------------------- *)
(* 8. Unsupported input                                                  *)
(* --------------------------------------------------------------------- *)

Section Dispatch.
Context {C : Carriers} {K : Collaborators}.

(** The register, qubit-count and block overloads call `run`, `sample`
    or `expectation` again, on a QuantumCircuit or a Register; dispatch on
    these reaches the overload the embedding calls directly. *)
Lemma run_dispatch_QuantumCircuit c pos kw :
  run (VQuantumCircuit c :: pos) kw = run_QuantumCircuit c pos kw.
Proof. reflexivity. Qed.

Lemma run_dispatch_Register r pos kw :
  run (VRegister r :: pos) kw = run_Register r pos kw.
Proof. reflexivity. Qed.

Lemma sample_dispatch_QuantumCircuit c pos kw :
  sample (VQuantumCircuit c :: pos) kw = sample_QuantumCircuit c pos kw.
Proof. reflexivity. Qed.

Lemma sample_dispatch_Register r pos kw :
  sample (VRegister r :: pos) kw = sample_Register r pos kw.
Proof. reflexivity. Qed.

Lemma expectation_dispatch_QuantumCircuit c pos kw :
  expectation (VQuantumCircuit c :: pos) kw =
  expectation_QuantumCircuit c pos kw.
Proof. reflexivity. Qed.

Lemma run_object_eq x pos kw w :
  run_object x pos kw w =
  (Raised (if binds run_params [] kw
           then ValueError ("Cannot run " +:+ type_repr x)
           else TypeError), w).
Proof.
  unfold run_object, mbind, M_bind. rewrite bind_defaults_eq.
  by destruct (binds _ _ _).
Qed.

Lemma sample_object_eq x pos kw w :
  sample_object x pos kw w =
  (Raised (if binds sample_params [] kw
           then ValueError ("Cannot sample from " +:+ type_repr x)
           else TypeError), w).
Proof.
  unfold sample_object, mbind, M_bind. rewrite bind_defaults_eq.
  by destruct (binds _ _ _).
Qed.

Lemma expectation_object_eq x pos kw w :
  expectation_object x pos kw w =
  (Raised (if observable_binds pos kw
           then ValueError ("Cannot execute " +:+ type_repr x)
           else TypeError), w).
Proof.
  unfold expectation_object, observable_binds, mbind, M_bind.
  rewrite bind_defaults_eq. destruct (binds _ _ _); [|done]. simpl.
  destruct (_ !! "observable"); [|done].
  by rewrite bool_decide_eq_true_2.
Qed.

(** C4.  When the class of the first positional argument has no overload
    (a float, as in `run(3.14, some_block)`, a string, None, a list, ...),
    each of `run`, `sample` and `expectation` raises without calling any
    collaborator: the process state, trace included, is the one it found.
    The exception is the ValueError of the undecorated function, "Cannot
    run <class 'float'>" and alike, which is the error the specification
    names UnsupportedInputError; a call whose remaining arguments do not
    even fit the signature is rejected by Python with a TypeError. *)
Theorem unsupported_input_fails_fast x pos kw w :
  has_overload x = false →
  run (x :: pos) kw w =
    (Raised (if binds run_params [] kw
             then ValueError ("Cannot run " +:+ type_repr x)
             else TypeError), w)
  ∧ sample (x :: pos) kw w =
    (Raised (if binds sample_params [] kw
             then ValueError ("Cannot sample from " +:+ type_repr x)
             else TypeError), w)
  ∧ expectation (x :: pos) kw w =
    (Raised (if observable_binds pos kw
             then ValueError ("Cannot execute " +:+ type_repr x)
             else TypeError), w).
Proof.
  intros Hx.
  rewrite <- (run_object_eq x pos), <- (sample_object_eq x pos),
    <- expectation_object_eq.
  by destruct x.
Qed.

End Dispatch.

(* --------------------------------------------------------------------- *)
(* 9. The pipeline behind the circuit overloads                          *)
(* --------------------------------------------------------------------- *)

Section Pipeline.
Context {C : Carriers} {K : Collaborators}.

Lemma bound_keywords_only names (kw : gmap string Value) :
  list_to_map (zip names []) ∪ kw = kw.
Proof. destruct names; simpl; apply (left_id ∅ (∪)). Qed.

(** With `observable` passed positionally, the options are those of the
    keywords. *)
Lemma arg_after_observable obs (kw : gmap string Value) name dflt :
  name ≠ "observable" →
  arg (list_to_map (zip expectation_params [obs]) ∪ kw) name dflt
  = arg kw name dflt.
Proof.
  intros Hne. unfold arg. f_equal. simpl.
  apply lookup_union_r. by rewrite lookup_insert_ne.
Qed.

Lemma observable_positional obs (kw : gmap string Value) :
  (list_to_map (zip expectation_params [obs]) ∪ kw) !! "observable"
  = Some obs.
Proof. simpl. apply lookup_union_Some_l. by rewrite lookup_insert_eq. Qed.

(** C6.  What the circuit overloads do, step by step.  When the options
    bind and the first three steps return, `run`, `sample` and
    `expectation` record exactly four calls, in this order: the backend
    is resolved from the `backend` identifier and the `configuration`;
    its `convert` is called on the circuit (and, for `expectation`, on
    the list of observables); the embedding function of the conversion
    is applied to the conversion's initial parameters and to `values`;
    and the backend operation of the same name is called on the converted
    circuit (and observable) with the embedded parameters, `state`,
    `endianness` (and `n_shots` for `sample`).  What that last call
    returns or raises is the outcome of the operation. *)
Theorem pipeline_order c kw w :
  (∀ bknd conv pv,
     binds run_params [] kw = true →
     backend_factory (arg kw "backend" (VBackendName PYQTORCH))
       (arg kw "configuration" VNone) = Returned bknd →
     bknd_convert bknd c None (grad_enabled w) = Returned conv →
     embedding_fn conv (conv_params conv) (arg kw "values" (VDict [])) false
       = Returned pv →
     run [VQuantumCircuit c] kw w =
     (bknd_run bknd (conv_circuit conv) pv (arg kw "state" VNone)
        (arg kw "endianness" (VEndianness BIG)) false,
      {| grad_enabled := grad_enabled w;
         trace := trace w ++
           [ {| call := CallBackendFactory
                          (arg kw "backend" (VBackendName PYQTORCH))
                          (arg kw "configuration" VNone);
                grad := grad_enabled w |};
             {| call := CallConvert bknd c None; grad := grad_enabled w |};
             {| call := CallEmbeddingFn (conv_params conv)
                          (arg kw "values" (VDict []));
                grad := false |};
             {| call := CallRun bknd (conv_circuit conv) pv
                          (arg kw "state" VNone)
                          (arg kw "endianness" (VEndianness BIG));
                grad := false |} ] |}))
  ∧ (∀ bknd conv pv,
     binds sample_params [] kw = true →
     backend_factory (arg kw "backend" (VBackendName PYQTORCH))
       (arg kw "configuration" VNone) = Returned bknd →
     bknd_convert bknd c None (grad_enabled w) = Returned conv →
     embedding_fn conv (conv_params conv) (arg kw "values" (VDict []))
       (grad_enabled w) = Returned pv →
     sample [VQuantumCircuit c] kw w =
     (bknd_sample bknd (conv_circuit conv) pv (arg kw "n_shots" (VInt 100))
        (arg kw "state" VNone) (arg kw "endianness" (VEndianness BIG))
        (grad_enabled w),
      {| grad_enabled := grad_enabled w;
         trace := trace w ++
           [ {| call := CallBackendFactory
                          (arg kw "backend" (VBackendName PYQTORCH))
                          (arg kw "configuration" VNone);
                grad := grad_enabled w |};
             {| call := CallConvert bknd c None; grad := grad_enabled w |};
             {| call := CallEmbeddingFn (conv_params conv)
                          (arg kw "values" (VDict []));
                grad := grad_enabled w |};
             {| call := CallSample bknd (conv_circuit conv) pv
                          (arg kw "n_shots" (VInt 100))
                          (arg kw "state" VNone)
                          (arg kw "endianness" (VEndianness BIG));
                grad := grad_enabled w |} ] |}))
  ∧ (∀ obs bknd conv pv,
     let g := if is_None (arg kw "diff_mode" VNone)
              then false else grad_enabled w in
     binds expectation_params [obs] kw = true →
     backend_factory (arg kw "backend" (VBackendName PYQTORCH))
       (arg kw "configuration" VNone) = Returned bknd →
     bknd_convert bknd c (Some (as_list obs)) (grad_enabled w)
       = Returned conv →
     embedding_fn conv (conv_params conv) (arg kw "values" (VDict [])) g
       = Returned pv →
     expectation [VQuantumCircuit c; obs] kw w =
     (bknd_expectation bknd (conv_circuit conv) (conv_observable conv) pv
        (arg kw "state" VNone) (arg kw "endianness" (VEndianness BIG)) g,
      {| grad_enabled := grad_enabled w;
         trace := trace w ++
           [ {| call := CallBackendFactory
                          (arg kw "backend" (VBackendName PYQTORCH))
                          (arg kw "configuration" VNone);
                grad := grad_enabled w |};
             {| call := CallConvert bknd c (Some (as_list obs));
                grad := grad_enabled w |};
             {| call := CallEmbeddingFn (conv_params conv)
                          (arg kw "values" (VDict []));
                grad := g |};
             {| call := CallExpectation bknd (conv_circuit conv)
                          (conv_observable conv) pv (arg kw "state" VNone)
                          (arg kw "endianness" (VEndianness BIG));
                grad := g |} ] |})).
Proof.
  split; [|split].
  - intros bknd conv pv Hb Hf Hc He.
    unfold run, run_QuantumCircuit, mbind, M_bind.
    rewrite bind_defaults_eq, Hb, bound_keywords_only.
    unfold call_backend_factory, call_convert, call_embedding_fn, call_run,
      no_grad, invoke, record. simpl.
    rewrite Hf, Hc. simpl. rewrite He. simpl.
    by rewrite <- !app_assoc.
  - intros bknd conv pv Hb Hf Hc He.
    unfold sample, sample_QuantumCircuit, mbind, M_bind.
    rewrite bind_defaults_eq, Hb, bound_keywords_only.
    unfold call_backend_factory, call_convert, call_embedding_fn,
      call_sample, invoke, record. simpl.
    rewrite Hf, Hc. simpl. rewrite He. simpl.
    by rewrite <- !app_assoc.
  - intros obs bknd conv pv g Hb Hf Hc He.
    unfold expectation, expectation_QuantumCircuit, mbind, M_bind.
    rewrite bind_defaults_eq, Hb, observable_positional.
    rewrite !arg_after_observable by done.
    unfold call_backend_factory, call_convert, call_embedding_fn,
      call_expectation, no_grad, invoke, record. simpl.
    rewrite Hf, Hc. subst g.
    destruct (is_None _); simpl; rewrite He; simpl;
      by rewrite <- !app_assoc.
Qed.

End Pipeline.

(* --------------------------------------------------------------------- *)
(* 10. A bare observable and its singleton list                          *)
(* --------------------------------------------------------------------- *)

Section Observable.
Context {C : Carriers} {K : Collaborators}.

(** Binding looks at the names of the keywords, not at their values. *)
Lemma binds_dom names pos (kw kw' : gmap string Value) :
  dom kw = dom kw' → binds names pos kw = binds names pos kw'.
Proof.
  intros Hd. unfold binds. f_equal. apply bool_decide_ext.
  rewrite !map_Forall_lookup. split; intros Hk k v Hv.
  - assert (is_Some (kw !! k)) as [v' Hv'].
    { apply elem_of_dom. rewrite Hd. apply elem_of_dom. eauto. }
    eauto.
  - assert (is_Some (kw' !! k)) as [v' Hv'].
    { apply elem_of_dom. rewrite <- Hd. apply elem_of_dom. eauto. }
    eauto.
Qed.

Lemma arg_insert_other (m : gmap string Value) k v name dflt :
  name ≠ k → arg (<[k := v]> m) name dflt = arg m name dflt.
Proof. intros Hne. unfold arg. by rewrite lookup_insert_ne. Qed.

(** The circuit overload uses its `observable` only through `as_list`. *)
Lemma expectation_QuantumCircuit_as_list c o o' pos kw w :
  as_list o = as_list o' →
  expectation_QuantumCircuit c (o :: pos) kw w
  = expectation_QuantumCircuit c (o' :: pos) kw w.
Proof.
  intros Ho. unfold expectation_QuantumCircuit, mbind, M_bind.
  rewrite !bind_defaults_eq.
  change (binds expectation_params (o :: pos) kw)
    with (binds expectation_params (o' :: pos) kw).
  destruct (binds _ _ _); [|done].
  change (list_to_map (zip expectation_params (?x :: pos)))
    with (<["observable" := x]>
            (list_to_map (zip (tail expectation_params) pos)
               : gmap string Value)).
  rewrite <- !insert_union_l, !lookup_insert_eq, !arg_insert_other by done.
  by rewrite Ho.
Qed.

Lemma expectation_QuantumCircuit_as_list_kw c o o' kw w :
  as_list o = as_list o' →
  expectation_QuantumCircuit c [] (<["observable" := o]> kw) w
  = expectation_QuantumCircuit c [] (<["observable" := o']> kw) w.
Proof.
  intros Ho. unfold expectation_QuantumCircuit, mbind, M_bind.
  rewrite !bind_defaults_eq, !bound_keywords_only.
  rewrite (binds_dom _ _ (<["observable" := o]> kw)
             (<["observable" := o']> kw))
    by (by rewrite !dom_insert_L).
  destruct (binds _ _ _); [|done].
  rewrite !lookup_insert_eq, !arg_insert_other by done.
  by rewrite Ho.
Qed.

Lemma observable_first obs pos (kw : gmap string Value) :
  (list_to_map (zip expectation_params (obs :: pos)) ∪ kw) !! "observable"
  = Some obs.
Proof. simpl. apply lookup_union_Some_l. by rewrite lookup_insert_eq. Qed.

Lemma arg_after_first obs pos (kw : gmap string Value) name dflt :
  name ≠ "observable" →
  arg (list_to_map (zip expectation_params (obs :: pos)) ∪ kw) name dflt
  = arg (list_to_map (zip (tail expectation_params) pos) ∪ kw) name dflt.
Proof.
  intros Hne. simpl. rewrite <- insert_union_l. by apply arg_insert_other.
Qed.

(** What the circuit overload hands to `convert`. *)
Lemma expectation_QuantumCircuit_converts c obs pos kw w bknd :
  let a := list_to_map (zip (tail expectation_params) pos) ∪ kw in
  let backend := arg a "backend" (VBackendName PYQTORCH) in
  let configuration := arg a "configuration" VNone in
  binds expectation_params (obs :: pos) kw = true →
  backend_factory backend configuration = Returned bknd →
  ∃ r d,
    expectation_QuantumCircuit c (obs :: pos) kw w =
    (r, after w (entry (CallBackendFactory backend configuration)
                   (grad_enabled w)
                 :: entry (CallConvert bknd c (Some (as_list obs)))
                      (grad_enabled w)
                 :: d)).
Proof.
  intros a backend configuration Hb Hf. subst a backend configuration.
  unfold expectation_QuantumCircuit.
  rewrite (bind_returned _ _ w _ w)
    by (by rewrite bind_defaults_eq, Hb).
  rewrite observable_first, !arg_after_first by done. cbv zeta.
  set (a := list_to_map (zip (tail expectation_params) pos) ∪ kw) in *.
  erewrite bind_returned;
    [|unfold call_backend_factory; by rewrite invoke_eq, Hf].
  unfold mbind, M_bind, call_convert. rewrite invoke_eq.
  set (w2 := record _ (record _ w)).
  assert (∀ d, after w2 d
               = after w (entry (CallBackendFactory
                                   (arg a "backend" (VBackendName PYQTORCH))
                                   (arg a "configuration" VNone))
                            (grad_enabled w)
                          :: entry (CallConvert bknd c (Some (as_list obs)))
                               (grad_enabled w)
                          :: d)) as Hw2.
  { intros d. unfold w2, after, record, entry. simpl.
    by rewrite <- !app_assoc. }
  destruct (bknd_convert _ _ _ _) as [conv|err].
  - match goal with |- ∃ r d, ?m w2 = _ =>
      assert (Emits (λ _ _, True) m) as Hm
        by (destruct (is_None _);
            [apply (Emits_no_grad (λ _ _, True))|]; emits)
    end.
    destruct (Emits_after _ _ w2 Hm) as (d & Hd & _).
    match goal with |- ∃ r d, ?m w2 = _ =>
      exists (m w2).1, d
    end.
    rewrite <- Hw2, <- Hd. by destruct (_ w2).
  - exists (Raised err), []. by rewrite <- Hw2, after_nil.
Qed.

(** C10.  A single observable block and the list holding just that block
    are interchangeable: `expectation(circuit, o, ...)` and
    `expectation(circuit, [o], ...)` are the same computation, whether
    the observable is passed positionally or as the keyword `observable`,
    since the circuit overload wraps an observable that is not a list
    into a singleton list: in both calls, once the backend is resolved,
    `convert` is handed the circuit and the list `[o]`. *)
Theorem bare_observable_is_singleton_list c (o : AbstractBlock) pos kw w :
  (expectation (VQuantumCircuit c :: VBlock o :: pos) kw w
   = expectation (VQuantumCircuit c :: VList [VBlock o] :: pos) kw w
   ∧ expectation [VQuantumCircuit c] (<["observable" := VBlock o]> kw) w
     = expectation [VQuantumCircuit c]
         (<["observable" := VList [VBlock o]]> kw) w)
  ∧ ∀ bknd,
      let a := list_to_map (zip (tail expectation_params) pos) ∪ kw in
      let backend := arg a "backend" (VBackendName PYQTORCH) in
      let configuration := arg a "configuration" VNone in
      binds expectation_params (VBlock o :: pos) kw = true →
      backend_factory backend configuration = Returned bknd →
      ∃ r d,
        let w' :=
          after w (entry (CallBackendFactory backend configuration)
                     (grad_enabled w)
                   :: entry (CallConvert bknd c (Some [VBlock o]))
                        (grad_enabled w)
                   :: d) in
        expectation (VQuantumCircuit c :: VBlock o :: pos) kw w = (r, w')
        ∧ expectation (VQuantumCircuit c :: VList [VBlock o] :: pos) kw w
          = (r, w').
Proof.
  assert (expectation (VQuantumCircuit c :: VBlock o :: pos) kw w
          = expectation (VQuantumCircuit c :: VList [VBlock o] :: pos) kw w)
    as Heq by (by apply expectation_QuantumCircuit_as_list).
  split; [split|].
  - exact Heq.
  - by apply expectation_QuantumCircuit_as_list_kw.
  - intros bknd a backend configuration Hb Hf.
    destruct (expectation_QuantumCircuit_converts c (VBlock o) pos kw w bknd
                Hb Hf) as (r & d & Hr).
    exists r, d. cbv zeta. split; [exact Hr|]. rewrite <- Heq. exact Hr.
Qed.

End Observable.

(* --------------------------------------------------------------------- *)
(* 11. Gradient tracking                                                 *)
(* --------------------------------------------------------------------- *)

Section Gradients.
Context {C : Carriers} {K : Collaborators}.

(** C2, as the code has it.  For every positional and keyword arguments
    and whatever gradient mode the caller is in, `run` makes its tensor
    calls (the embedding and `bknd.run`) with gradient tracking switched
    off, and hands the caller's mode back.  `sample` enters no
    `no_grad` block: all its calls, `bknd.sample` included, are made in
    the caller's gradient mode. *)
Theorem run_no_grad_sample_ambient args kw :
  Emits (tensor_calls_at (λ _, false)) (run args kw)
  ∧ Emits (tensor_calls_at (λ g, g)) (sample args kw).
Proof. split; [apply Emits_run | apply Emits_sample]. Qed.




End Gradients.

(* --------------------------------------------------------------------- *)
(* 12. Normalisation of the input shapes                                 *)
(* --------------------------------------------------------------------- *)

Ltac by_computation := apply (bool_decide_unpack _); vm_compute; reflexivity.

Section Normalisation.
Context {C : Carriers} {K : Collaborators}.

(** A keyword that names no unfilled parameter is a TypeError. *)
Lemma binds_unexpected names pos (kw : gmap string Value) k v :
  kw !! k = Some v → k ∉ drop (length pos) names →
  binds names pos kw = false.
Proof.
  intros Hk Hn. unfold binds. apply andb_false_intro2.
  apply bool_decide_eq_false_2. intros HF. by apply Hn, (HF k v).
Qed.

Lemma same_outcome_refl {A} (x : Outcome A * World) : same_outcome x x.
Proof. by repeat split. Qed.

Lemma same_outcome_trans {A} (x y z : Outcome A * World) :
  same_outcome x y → same_outcome y z → same_outcome x z.
Proof.
  intros (? & ? & ?) (? & ? & ?). repeat split; congruence.
Qed.

(** Building the circuit first changes nothing for the backend. *)
Lemma same_outcome_after_construction {A} (m : M A) c w :
  Framed m → is_construction c = true →
  same_outcome (m (record c w)) (m w).
Proof.
  intros Hm Hc. destruct w as [g t]. unfold record. simpl.
  rewrite (Hm g (t ++ _)), (Hm g t).
  destruct (m {| grad_enabled := g; trace := [] |}) as [r [g' d]].
  repeat split. simpl. unfold backend_calls.
  rewrite !filter_app, filter_cons_False, filter_nil, app_nil_r;
    [done | simpl; by rewrite Hc].
Qed.

Lemma Register_returned n r w :
  Register_init n = Returned r →
  Register n w = (Returned r, record (CallRegister n) w).
Proof. intros Hr. unfold Register. by rewrite invoke_eq, Hr. Qed.

Lemma QuantumCircuit_returned r b c w :
  QuantumCircuit_init r b = Returned c →
  QuantumCircuit r b w = (Returned c, record (CallQuantumCircuit r b) w).
Proof. intros Hc. unfold QuantumCircuit. by rewrite invoke_eq, Hc. Qed.

Lemma expectation_unexpected c obs (kw : gmap string Value) k v w :
  kw !! k = Some v → k ∉ drop 1 expectation_params →
  expectation_QuantumCircuit c [obs] kw w = (Raised TypeError, w).
Proof.
  intros Hk Hn. unfold expectation_QuantumCircuit, mbind, M_bind.
  by rewrite bind_defaults_eq, (binds_unexpected _ _ _ k v).
Qed.

(** Binding `(first, p, **kwargs)` and `(first, p, q, **kwargs)` when
    the parameters are all passed positionally. *)
Lemma bind_kwargs_0 {A} first kw (f : list Value * gmap string Value → M A)
    w :
  (bind_kwargs first [] [] kw ≫= f) w =
  match kw !! first with
  | None => f ([], kw) w
  | Some _ => (Raised TypeError, w)
  end.
Proof.
  unfold bind_kwargs, mbind, M_bind. by destruct (kw !! first).
Qed.

Lemma bind_kwargs_1 {A} first p v kw
    (f : list Value * gmap string Value → M A) w :
  (bind_kwargs first [p] [v] kw ≫= f) w =
  match kw !! first, kw !! p with
  | None, None => f ([v], kw) w
  | _, _ => (Raised TypeError, w)
  end.
Proof.
  unfold bind_kwargs, mbind, M_bind. simpl.
  by destruct (kw !! first), (kw !! p).
Qed.

Lemma bind_kwargs_2 {A} first p q v u kw
    (f : list Value * gmap string Value → M A) w :
  (bind_kwargs first [p; q] [v; u] kw ≫= f) w =
  match kw !! first, kw !! p, kw !! q with
  | None, None, None => f ([v; u], kw) w
  | _, _, _ => (Raised TypeError, w)
  end.
Proof.
  unfold bind_kwargs, mbind, M_bind. simpl.
  by destruct (kw !! first), (kw !! p), (kw !! q).
Qed.

Lemma run_unexpected c (kw : gmap string Value) k v w :
  kw !! k = Some v → k ∉ run_params →
  run_QuantumCircuit c [] kw w = (Raised TypeError, w).
Proof.
  intros Hk Hn. unfold run_QuantumCircuit, mbind, M_bind.
  by rewrite bind_defaults_eq, (binds_unexpected _ _ _ k v).
Qed.

Lemma sample_unexpected c (kw : gmap string Value) k v w :
  kw !! k = Some v → k ∉ sample_params →
  sample_QuantumCircuit c [] kw w = (Raised TypeError, w).
Proof.
  intros Hk Hn. unfold sample_QuantumCircuit, mbind, M_bind.
  by rewrite bind_defaults_eq, (binds_unexpected _ _ _ k v).
Qed.

Ltac unexpected_keyword :=
  first [erewrite expectation_unexpected
        | erewrite run_unexpected
        | erewrite sample_unexpected];
    [apply same_outcome_refl | done | by_computation].

(** `run` and `sample` on a register and a block come to the same as on
    the circuit built from them. *)
Lemma run_Register_outcome r b kw c w :
  QuantumCircuit_init r b = Returned c →
  same_outcome (run_Register r [b] kw w) (run_QuantumCircuit c [] kw w).
Proof.
  intros Hc. unfold run_Register. rewrite bind_kwargs_1.
  destruct (kw !! "register") eqn:Hr; [unexpected_keyword|].
  destruct (kw !! "block") eqn:Hb; [unexpected_keyword|].
  cbv beta iota zeta.
  rewrite (bind_returned _ _ _ _ _ (QuantumCircuit_returned _ _ _ _ Hc)).
  apply same_outcome_after_construction;
    [apply Framed_run_QuantumCircuit | done].
Qed.

Lemma sample_Register_outcome r b kw c w :
  QuantumCircuit_init r b = Returned c →
  same_outcome (sample_Register r [b] kw w)
               (sample_QuantumCircuit c [] kw w).
Proof.
  intros Hc. unfold sample_Register. rewrite bind_kwargs_1.
  destruct (kw !! "register") eqn:Hr; [unexpected_keyword|].
  destruct (kw !! "block") eqn:Hb; [unexpected_keyword|].
  cbv beta iota zeta.
  rewrite (bind_returned _ _ _ _ _ (QuantumCircuit_returned _ _ _ _ Hc)).
  apply same_outcome_after_construction;
    [apply Framed_sample_QuantumCircuit | done].
Qed.

Lemma expectation_Register_outcome r b obs kw c w :
  QuantumCircuit_init r b = Returned c →
  same_outcome (expectation_Register r [b; obs] kw w)
               (expectation_QuantumCircuit c [obs] kw w).
Proof.
  intros Hc. unfold expectation_Register. rewrite bind_kwargs_2.
  destruct (kw !! "register") eqn:Hr; [unexpected_keyword|].
  destruct (kw !! "block") eqn:Hb; [unexpected_keyword|].
  destruct (kw !! "observable") eqn:Ho; [unexpected_keyword|].
  cbv beta iota zeta.
  rewrite (bind_returned _ _ _ _ _ (QuantumCircuit_returned _ _ _ _ Hc)).
  apply same_outcome_after_construction;
    [apply Framed_expectation_QuantumCircuit | done].
Qed.

Lemma expectation_int_outcome n b obs kw r c w :
  Register_init n = Returned r →
  QuantumCircuit_init r b = Returned c →
  same_outcome (expectation_int n [b; obs] kw w)
               (expectation_QuantumCircuit c [obs] kw w).
Proof.
  intros Hr Hc. unfold expectation_int. rewrite bind_kwargs_2.
  destruct (kw !! "n_qubits") eqn:Hn; [unexpected_keyword|].
  destruct (kw !! "block") eqn:Hb; [unexpected_keyword|].
  destruct (kw !! "observable") eqn:Ho; [unexpected_keyword|].
  cbv beta iota zeta.
  rewrite (bind_returned _ _ _ _ _ (Register_returned _ _ _ Hr)).
  rewrite (bind_returned _ _ _ _ _ (QuantumCircuit_returned _ _ _ _ Hc)).
  eapply same_outcome_trans;
    apply same_outcome_after_construction;
    first [apply Framed_expectation_QuantumCircuit | done].
Qed.

Lemma expectation_AbstractBlock_outcome blk obs kw r c w :
  Register_init (VInt (n_qubits blk)) = Returned r →
  QuantumCircuit_init r (VBlock blk) = Returned c →
  same_outcome (expectation_AbstractBlock blk [obs] kw w)
               (expectation_QuantumCircuit c [obs] kw w).
Proof.
  intros Hr Hc. unfold expectation_AbstractBlock. rewrite bind_kwargs_1.
  destruct (kw !! "block") eqn:Hb; [unexpected_keyword|].
  destruct (kw !! "observable") eqn:Ho; [unexpected_keyword|].
  cbv beta iota zeta.
  rewrite (bind_returned _ _ _ _ _ (Register_returned _ _ _ Hr)).
  rewrite (bind_returned _ _ _ _ _ (QuantumCircuit_returned _ _ _ _ Hc)).
  eapply same_outcome_trans;
    apply same_outcome_after_construction;
    first [apply Framed_expectation_QuantumCircuit | done].
Qed.

(** C1.  Dispatch equivalence.  Let [r] be the register that
    `Register(n)` returns and [c] the circuit that
    `QuantumCircuit(r, b)` returns.  Then, with the same observable and
    the same keywords, `expectation(r, b, obs)` and
    `expectation(n, b, obs)` return (or raise) what
    `expectation(c, obs)` does, and make the same calls into the backend
    with the same arguments, the canonical circuit [c] among them; so
    does `expectation(b, obs)` when [n] is the qubit count of the block
    [b]. *)
Theorem dispatch_equivalence n r b c obs kw w :
  Register_init (VInt n) = Returned r →
  QuantumCircuit_init r b = Returned c →
  same_outcome (expectation [VRegister r; b; obs] kw w)
               (expectation [VQuantumCircuit c; obs] kw w)
  ∧ same_outcome (expectation [VInt n; b; obs] kw w)
                 (expectation [VQuantumCircuit c; obs] kw w)
  ∧ (∀ blk, b = VBlock blk → n = n_qubits blk →
       same_outcome (expectation [VBlock blk; obs] kw w)
                    (expectation [VQuantumCircuit c; obs] kw w)).
Proof.
  intros Hr Hc. split; [|split].
  - by apply expectation_Register_outcome.
  - by eapply expectation_int_outcome.
  - intros blk -> ->. by eapply expectation_AbstractBlock_outcome.
Qed.

Lemma bind_ext {A B} (m : M A) (f g : A → M B) w :
  (∀ a w', f a w' = g a w') → (m ≫= f) w = (m ≫= g) w.
Proof.
  intros Hfg. unfold mbind, M_bind. by destruct (m w) as [[a|e] w'].
Qed.

(** `n_qubits` is one more than the highest qubit index of the block. *)
Lemma n_qubits_above blk q :
  q ∈ qubit_support blk → Z.of_nat q < n_qubits blk.
Proof.
  intros Hq. unfold n_qubits.
  destruct (qubit_support blk) as [|q0 qs]; [by apply elem_of_nil in Hq|].
  apply max_list_elem_of_le in Hq. lia.
Qed.

Lemma n_qubits_attained blk :
  qubit_support blk ≠ [] →
  ∃ q, q ∈ qubit_support blk ∧ n_qubits blk = Z.of_nat q + 1.
Proof.
  intros Hne. exists (max_list (qubit_support blk)).
  split; [by apply max_list_elem_of|].
  unfold n_qubits. by destruct (qubit_support blk).
Qed.

(** C5.  A bare block.  The block overloads of `run`, `sample` and
    `expectation` build `Register(block.n_qubits)`, where `n_qubits` is
    one more than the highest qubit index the block refers to, then the
    circuit of that register and the block, and go on as the same
    operation does on that circuit.  (The keywords are those of the
    operation: a keyword named after a positional parameter of the
    overloads is rejected by Python.) *)
Theorem bare_block_register blk kw w :
  (∀ q, q ∈ qubit_support blk → Z.of_nat q < n_qubits blk)
  ∧ (qubit_support blk ≠ [] →
     ∃ q, q ∈ qubit_support blk ∧ n_qubits blk = Z.of_nat q + 1)
  ∧ (kw !! "block" = None → kw !! "register" = None →
     run [VBlock blk] kw w =
       (reg ← Register (VInt (n_qubits blk));
        circuit ← QuantumCircuit reg (VBlock blk);
        run [VQuantumCircuit circuit] kw) w
     ∧ sample [VBlock blk] kw w =
       (reg ← Register (VInt (n_qubits blk));
        circuit ← QuantumCircuit reg (VBlock blk);
        sample [VQuantumCircuit circuit] kw) w)
  ∧ (∀ obs, kw !! "block" = None → kw !! "observable" = None →
     expectation [VBlock blk; obs] kw w =
       (reg ← Register (VInt (n_qubits blk));
        circuit ← QuantumCircuit reg (VBlock blk);
        expectation [VQuantumCircuit circuit; obs] kw) w).
Proof.
  split; [apply n_qubits_above|]. split; [apply n_qubits_attained|].
  split.
  - intros Hb Hr. split.
    + unfold run at 1, run_AbstractBlock. rewrite bind_kwargs_0, Hb.
      cbv beta iota zeta. apply bind_ext. intros reg w'.
      unfold run_Register. by rewrite bind_kwargs_1, Hr, Hb.
    + unfold sample at 1, sample_AbstractBlock. rewrite bind_kwargs_0, Hb.
      cbv beta iota zeta. apply bind_ext. intros reg w'.
      unfold sample_Register. by rewrite bind_kwargs_1, Hr, Hb.
  - intros obs Hb Ho.
    unfold expectation at 1, expectation_AbstractBlock.
    by rewrite bind_kwargs_1, Hb, Ho.
Qed.

End Normalisation.

(* --------------------------------------------------------------------- *)
(* 13. Defaults of the keyword options                                   *)
(* --------------------------------------------------------------------- *)

Section Defaults.
Context {C : Carriers} {K : Collaborators}.

(** Keywords that name unfilled parameters do not affect binding. *)
Lemma binds_union names pos (kw D : gmap string Value) :
  map_Forall (λ k _, k ∈ drop (length pos) names) D →
  binds names pos (kw ∪ D) = binds names pos kw.
Proof.
  intros HD. unfold binds. f_equal. apply bool_decide_ext.
  rewrite !map_Forall_lookup. split; intros Hk k v Hv.
  - apply (Hk k v). by apply lookup_union_Some_l.
  - apply lookup_union_Some_raw in Hv as [Hv|[_ Hv]].
    + by apply (Hk k v).
    + by apply (HD k v).
Qed.

(** Passing a default explicitly is not passing it. *)
Lemma arg_union_default (kw D : gmap string Value) name dflt :
  D !! name = Some dflt → arg (kw ∪ D) name dflt = arg kw name dflt.
Proof.
  intros HD. unfold arg. rewrite lookup_union, HD.
  by destruct (kw !! name).
Qed.

Lemma lookup_union_absent (kw D : gmap string Value) k :
  D !! k = None → (kw ∪ D) !! k = kw !! k.
Proof. intros HD. rewrite lookup_union, HD. by destruct (kw !! k). Qed.

Lemma run_QuantumCircuit_defaults c kw w :
  run_QuantumCircuit c [] (kw ∪ run_defaults) w
  = run_QuantumCircuit c [] kw w.
Proof.
  unfold run_QuantumCircuit, mbind, M_bind.
  rewrite !bind_defaults_eq, !bound_keywords_only.
  rewrite binds_union by by_computation.
  destruct (binds _ _ _); [|done].
  by rewrite !arg_union_default by reflexivity.
Qed.

Lemma sample_QuantumCircuit_defaults c kw w :
  sample_QuantumCircuit c [] (kw ∪ sample_defaults) w
  = sample_QuantumCircuit c [] kw w.
Proof.
  unfold sample_QuantumCircuit, mbind, M_bind.
  rewrite !bind_defaults_eq, !bound_keywords_only.
  rewrite binds_union by by_computation.
  destruct (binds _ _ _); [|done].
  by rewrite !arg_union_default by reflexivity.
Qed.

Lemma expectation_QuantumCircuit_defaults c obs kw w :
  expectation_QuantumCircuit c [obs] (kw ∪ expectation_defaults) w
  = expectation_QuantumCircuit c [obs] kw w.
Proof.
  unfold expectation_QuantumCircuit, mbind, M_bind.
  rewrite !bind_defaults_eq.
  rewrite binds_union by by_computation.
  destruct (binds _ _ _); [|done].
  rewrite !observable_positional, !arg_after_observable by done.
  by rewrite !arg_union_default by reflexivity.
Qed.

Ltac forwarded_keywords lem :=
  rewrite ?bind_kwargs_0, ?bind_kwargs_1, ?bind_kwargs_2;
  rewrite ?lookup_union_absent by reflexivity;
  repeat case_match; try done;
  cbv beta iota zeta;
  repeat (apply bind_ext; intros ? ?);
  first [apply lem | done].

Lemma run_Register_defaults r b kw w :
  run_Register r [b] (kw ∪ run_defaults) w = run_Register r [b] kw w.
Proof.
  unfold run_Register. forwarded_keywords run_QuantumCircuit_defaults.
Qed.

Lemma sample_Register_defaults r b kw w :
  sample_Register r [b] (kw ∪ sample_defaults) w
  = sample_Register r [b] kw w.
Proof.
  unfold sample_Register. forwarded_keywords sample_QuantumCircuit_defaults.
Qed.

(** C8.  The defaults.  On each of the four input shapes, calling an
    operation with some of its keyword options left out is the same
    computation as calling it with each missing option supplied as
    `values={}`, `state=None`, `backend=BackendName.PYQTORCH`,
    `endianness=Endianness.BIG`, `configuration=None`, and `n_shots=100`
    for `sample`, `diff_mode=None` for `expectation`.  ([kw ∪ d] keeps
    the keywords of [kw] and takes from [d] those [kw] lacks.) *)
Theorem keyword_defaults (s : Shape) kw w :
  run (positional s) kw w = run (positional s) (kw ∪ run_defaults) w
  ∧ sample (positional s) kw w
    = sample (positional s) (kw ∪ sample_defaults) w
  ∧ ∀ obs,
      expectation (positional s ++ [obs]) kw w
      = expectation (positional s ++ [obs]) (kw ∪ expectation_defaults) w.
Proof.
  split; [|split; [|intros obs]]; symmetry; destruct s as [c|r b|n b|blk];
    simpl.
  - apply run_QuantumCircuit_defaults.
  - apply run_Register_defaults.
  - unfold run_int. forwarded_keywords run_Register_defaults.
  - unfold run_AbstractBlock. forwarded_keywords run_Register_defaults.
  - apply sample_QuantumCircuit_defaults.
  - apply sample_Register_defaults.
  - unfold sample_int. forwarded_keywords sample_Register_defaults.
  - unfold sample_AbstractBlock.
    forwarded_keywords sample_Register_defaults.
  - apply expectation_QuantumCircuit_defaults.
  - unfold expectation_Register.
    forwarded_keywords expectation_QuantumCircuit_defaults.
  - unfold expectation_int.
    forwarded_keywords expectation_QuantumCircuit_defaults.
  - unfold expectation_AbstractBlock.
    forwarded_keywords expectation_QuantumCircuit_defaults.
Qed.

End Defaults.

Section OnTheStub.
#[local] Existing Instance Stub.carriers.
#[local] Existing Instance Stub.collaborators.
Import Stub.

(** C2, as the specification has it, fails for `sample`: from torch's
    initial state, `sample(circuit)` calls the embedding and `bknd.sample`
    with gradient tracking on. *)
Lemma sample_tracks_gradients :
  ¬ Emits (tensor_calls_at (λ _, false)) (sample [VQuantumCircuit 2] ∅).
Proof.
  intros HE. destruct (HE w0) as (d & Ht & _ & HF).
  vm_compute in Ht. subst d.
  apply Forall_cons in HF as [_ HF]. apply Forall_cons in HF as [_ HF].
  apply Forall_cons in HF as [HF _]. discriminate HF.
Qed.

(** `run(3.14, some_block)` and its siblings. *)
Lemma unsupported_input_fails_fast_witness :
  has_overload (VFloat pi) = false
  ∧ run [VFloat pi; VBlock X0] ∅ w0
    = (Raised (ValueError "Cannot run <class 'float'>"), w0)
  ∧ sample [VFloat pi; VBlock X0] ∅ w0
    = (Raised (ValueError "Cannot sample from <class 'float'>"), w0)
  ∧ expectation [VFloat pi; VBlock X0] ∅ w0
    = (Raised (ValueError "Cannot execute <class 'float'>"), w0).
Proof.
  split; [reflexivity|].
  exact (unsupported_input_fails_fast (VFloat pi) [VBlock X0] ∅ w0 eq_refl).
Defined.

(** `run(circuit)`, `sample(circuit, n_shots=7)` and
    `expectation(circuit, Z(1), backend=PULSER, diff_mode=AD)`. *)
Lemma pipeline_order_witness :
  run [VQuantumCircuit 2] ∅ w0 =
    (Returned (2, false),
     {| grad_enabled := true;
        trace :=
          [ {| call := CallBackendFactory (VBackendName PYQTORCH) VNone;
               grad := true |};
            {| call := CallConvert PYQTORCH 2 None; grad := true |};
            {| call := CallEmbeddingFn () (VDict []); grad := false |};
            {| call := CallRun PYQTORCH 2 0%nat VNone (VEndianness BIG);
               grad := false |} ] |})
  ∧ sample [VQuantumCircuit 2] {[ "n_shots" := VInt 7 ]} w0 =
    (Returned 7,
     {| grad_enabled := true;
        trace :=
          [ {| call := CallBackendFactory (VBackendName PYQTORCH) VNone;
               grad := true |};
            {| call := CallConvert PYQTORCH 2 None; grad := true |};
            {| call := CallEmbeddingFn () (VDict []); grad := true |};
            {| call := CallSample PYQTORCH 2 0%nat (VInt 7) VNone
                         (VEndianness BIG);
               grad := true |} ] |})
  ∧ expectation [VQuantumCircuit 2; VBlock Z1]
      {[ "backend" := VBackendName PULSER; "diff_mode" := VDiffMode AD ]} w0 =
    (Returned (3, true),
     {| grad_enabled := true;
        trace :=
          [ {| call := CallBackendFactory (VBackendName PULSER) VNone;
               grad := true |};
            {| call := CallConvert PULSER 2 (Some [VBlock Z1]);
               grad := true |};
            {| call := CallEmbeddingFn () (VDict []); grad := true |};
            {| call := CallExpectation PULSER 2 1%nat 0%nat VNone
                         (VEndianness BIG);
               grad := true |} ] |}).
Proof.
  pose (conv n := {| conv_circuit := 2; conv_observable := n;
                     embedding_fn := stub_embedding_fn;
                     conv_params := () |}).
  split; [|split].
  - exact (proj1 (pipeline_order (K:=collaborators) 2 ∅ w0) PYQTORCH (conv 0%nat) 0%nat
             eq_refl eq_refl eq_refl eq_refl).
  - exact (proj1 (proj2 (pipeline_order (K:=collaborators) 2 {[ "n_shots" := VInt 7 ]} w0))
             PYQTORCH (conv 0%nat) 0%nat eq_refl eq_refl eq_refl eq_refl).
  - exact (proj2 (proj2 (pipeline_order (K:=collaborators) 2
                    {[ "backend" := VBackendName PULSER;
                       "diff_mode" := VDiffMode AD ]} w0))
             (VBlock Z1) PULSER (conv 1%nat) 0%nat
             eq_refl eq_refl eq_refl eq_refl).
Defined.


(** `expectation(circuit, Z(1))` and `expectation(circuit, [Z(1)])`:
    `convert` gets `[Z(1)]`. *)
Lemma bare_observable_is_singleton_list_witness :
  binds expectation_params [VBlock Z1] ∅ = true
  ∧ backend_factory (VBackendName PYQTORCH) VNone = Returned PYQTORCH
  ∧ ∃ r d,
      let w' :=
        after w0 (entry (CallBackendFactory (VBackendName PYQTORCH) VNone)
                    true
                  :: entry (CallConvert PYQTORCH 2 (Some [VBlock Z1])) true
                  :: d) in
      expectation [VQuantumCircuit 2; VBlock Z1] ∅ w0 = (r, w')
      ∧ expectation [VQuantumCircuit 2; VList [VBlock Z1]] ∅ w0 = (r, w').
Proof.
  assert (binds expectation_params [VBlock Z1] ∅ = true) as Hb
    by (vm_compute; reflexivity).
  split; [exact Hb|]. split; [reflexivity|].
  pose proof (proj2 (bare_observable_is_singleton_list (K:=collaborators)
                       2 Z1 [] ∅ w0) PYQTORCH) as H.
  exact (H Hb eq_refl).
Defined.

(** `Register(2)`, `QuantumCircuit(Register(2), Z(1))`, and the three
    ways of asking for the expectation of X(0) on them. *)
Lemma dispatch_equivalence_witness :
  Register_init (VInt 2) = Returned 2
  ∧ QuantumCircuit_init 2 (VBlock Z1) = Returned 2
  ∧ same_outcome
      (expectation [VRegister 2; VBlock Z1; VBlock X0] ∅ w0)
      (expectation [VQuantumCircuit 2; VBlock X0] ∅ w0)
  ∧ same_outcome
      (expectation [VInt 2; VBlock Z1; VBlock X0] ∅ w0)
      (expectation [VQuantumCircuit 2; VBlock X0] ∅ w0)
  ∧ same_outcome
      (expectation [VBlock Z1; VBlock X0] ∅ w0)
      (expectation [VQuantumCircuit 2; VBlock X0] ∅ w0).
Proof.
  split; [reflexivity|]. split; [reflexivity|].
  destruct (dispatch_equivalence (K:=collaborators) 2 2 (VBlock Z1) 2
              (VBlock X0) ∅ w0 eq_refl eq_refl) as (Hr & Hn & Hb).
  split; [exact Hr|]. split; [exact Hn|].
  exact (Hb Z1 eq_refl eq_refl).
Defined.

(** `run(Z(1))`, `sample(Z(1))` and `expectation(Z(1), X(0))`: the
    register has two qubits. *)
Lemma bare_block_register_witness :
  n_qubits Z1 = 2
  ∧ (∅ : gmap string Value) !! "block" = None
  ∧ (∅ : gmap string Value) !! "register" = None
  ∧ (∅ : gmap string Value) !! "observable" = None
  ∧ run [VBlock Z1] ∅ w0 =
      (reg ← Register (VInt 2);
       circuit ← QuantumCircuit reg (VBlock Z1);
       run [VQuantumCircuit circuit] ∅) w0
  ∧ sample [VBlock Z1] ∅ w0 =
      (reg ← Register (VInt 2);
       circuit ← QuantumCircuit reg (VBlock Z1);
       sample [VQuantumCircuit circuit] ∅) w0
  ∧ expectation [VBlock Z1; VBlock X0] ∅ w0 =
      (reg ← Register (VInt 2);
       circuit ← QuantumCircuit reg (VBlock Z1);
       expectation [VQuantumCircuit circuit; VBlock X0] ∅) w0.
Proof.
  do 4 (split; [reflexivity|]).
  destruct (bare_block_register (K:=collaborators) Z1 ∅ w0)
    as (_ & _ & Hrs & He).
  destruct (Hrs eq_refl eq_refl) as [Hr Hs].
  split; [exact Hr|]. split; [exact Hs|].
  exact (He (VBlock X0) eq_refl eq_refl).
Defined.

(** What the calls above come to. *)
Example trace_of_run_on_block :
  run [VBlock Z1] ∅ w0 =
  (Returned (2, false),
   {| grad_enabled := true;
      trace :=
        [ {| call := CallRegister (VInt 2); grad := true |};
          {| call := CallQuantumCircuit 2 (VBlock Z1); grad := true |};
          {| call := CallBackendFactory (VBackendName PYQTORCH) VNone;
             grad := true |};
          {| call := CallConvert PYQTORCH 2 None; grad := true |};
          {| call := CallEmbeddingFn () (VDict []); grad := false |};
          {| call := CallRun PYQTORCH 2 0%nat VNone (VEndianness BIG);
             grad := false |} ] |}).
Proof. vm_compute. reflexivity. Qed.

Example trace_of_sample :
  sample [VQuantumCircuit 2] ∅ w0 =
  (Returned 100,
   {| grad_enabled := true;
      trace :=
        [ {| call := CallBackendFactory (VBackendName PYQTORCH) VNone;
             grad := true |};
          {| call := CallConvert PYQTORCH 2 None; grad := true |};
          {| call := CallEmbeddingFn () (VDict []); grad := true |};
          {| call := CallSample PYQTORCH 2 0%nat (VInt 100) VNone
                       (VEndianness BIG);
             grad := true |} ] |}).
Proof. vm_compute. reflexivity. Qed.

Example trace_of_expectation_under_no_grad :
  expectation [VQuantumCircuit 2; VBlock Z1]
    {[ "diff_mode" := VDiffMode AD ]} w_off =
  (Returned (3, false),
   {| grad_enabled := false;
      trace :=
        [ {| call := CallBackendFactory (VBackendName PYQTORCH) VNone;
             grad := false |};
          {| call := CallConvert PYQTORCH 2 (Some [VBlock Z1]);
             grad := false |};
          {| call := CallEmbeddingFn () (VDict []); grad := false |};
          {| call := CallExpectation PYQTORCH 2 1%nat 0%nat VNone
                       (VEndianness BIG);
             grad := false |} ] |}).
Proof. vm_compute. reflexivity. Qed.

End OnTheStub.

(* --------------------------------------------------------------------- *)
(* 14. Where the outcome of a call comes from                            *)
(* --------------------------------------------------------------------- *)

Section Provenance.
Context {C : Carriers} {K : Collaborators}.

Lemma Concludes_raise {A} (R : LogEntry → Outcome A → Prop) err :
  Concludes R (raise err).
Proof.
  intros w. exists []. rewrite after_nil. split; [done|].
  left. split; [constructor | by exists err].
Qed.

Lemma Concludes_invoke {A} (R : LogEntry → Outcome A → Prop) c f :
  (∀ g, R (entry c g) (f g)) → Concludes R (invoke c f).
Proof.
  intros HR w. exists [entry c (grad_enabled w)]. split; [done|].
  right. exists [], (entry c (grad_enabled w)). repeat split.
  - constructor.
  - apply HR.
Qed.

Lemma Concludes_bind {A B} (R : LogEntry → Outcome B → Prop) (m : M A)
    (f : A → M B) :
  Emits no_operation m → (∀ a, Concludes R (f a)) → Concludes R (m ≫= f).
Proof.
  intros Hm Hf w. destruct (Emits_after _ _ w Hm) as (d1 & Hw1 & Hd1).
  unfold mbind, M_bind. destruct (m w) as [[a|err] w1]; simpl in *; subst w1.
  - destruct (Hf a (after w d1)) as (d2 & Hw2 & Hd2).
    exists (d1 ++ d2). rewrite Hw2, after_after. split; [done|].
    destruct Hd2 as [[Hn Herr]|(d' & e & -> & Hn & HR)].
    + left. split; [|done]. apply Forall_app. split; [|done].
      eapply Forall_impl; [exact Hd1|done].
    + right. exists (d1 ++ d'), e. rewrite app_assoc. repeat split; [|done].
      apply Forall_app. split; [|done].
      eapply Forall_impl; [exact Hd1|done].
  - exists d1. split; [done|]. left. split; [|by exists err].
    eapply Forall_impl; [exact Hd1|done].
Qed.

Lemma Concludes_no_grad {A} (R : LogEntry → Outcome A → Prop) (body : M A) :
  Concludes R body → Concludes R (no_grad body).
Proof.
  intros Hb w. unfold no_grad.
  destruct (Hb {| grad_enabled := false; trace := trace w |})
    as (d & Hw & Hd).
  destruct (body _) as [r w']. simpl in *. subst w'. by exists d.
Qed.

End Provenance.

Ltac no_operations :=
  solve [ emits_using ltac:(apply Emits_invoke; intros ?; reflexivity) ].

Ltac concludes_using tac :=
  repeat first
    [ tac
    | apply Concludes_raise
    | apply Concludes_no_grad
    | apply Concludes_invoke; intros ?; reflexivity
    | apply Concludes_bind; [no_operations | intros ?]
    | case_match ].

Section ProvenanceOfTheFacade.
Context {C : Carriers} {K : Collaborators}.

Lemma Concludes_run_QuantumCircuit c pos kw :
  Concludes replays_run (run_QuantumCircuit c pos kw).
Proof. unfold run_QuantumCircuit. concludes_using fail. Qed.

Lemma Concludes_sample_QuantumCircuit c pos kw :
  Concludes replays_sample (sample_QuantumCircuit c pos kw).
Proof. unfold sample_QuantumCircuit. concludes_using fail. Qed.

Lemma Concludes_expectation_QuantumCircuit c pos kw :
  Concludes replays_expectation (expectation_QuantumCircuit c pos kw).
Proof. unfold expectation_QuantumCircuit. concludes_using fail. Qed.

(** X10.  Whatever the arguments, each of `run`, `sample` and
    `expectation` hands the gradient mode back as it found it and ends in
    one of two ways.  Either it raises without having called `bknd.run`,
    `bknd.sample` or `bknd.expectation` at all; or it calls the backend
    operation of its own name exactly once, as the last call it makes, and
    returns what that call returned or raises what it raised. *)
Theorem outcome_is_the_backends args kw :
  Concludes replays_run (run args kw)
  ∧ Concludes replays_sample (sample args kw)
  ∧ Concludes replays_expectation (expectation args kw).
Proof.
  split; [|split].
  - unfold run, run_object, run_AbstractBlock, run_int, run_Register.
    concludes_using ltac:(apply Concludes_run_QuantumCircuit).
  - unfold sample, sample_object, sample_AbstractBlock, sample_int,
      sample_Register.
    concludes_using ltac:(apply Concludes_sample_QuantumCircuit).
  - unfold expectation, expectation_object, expectation_AbstractBlock,
      expectation_int, expectation_Register.
    concludes_using ltac:(apply Concludes_expectation_QuantumCircuit).
Qed.

End ProvenanceOfTheFacade.

(* --------------------------------------------------------------------- *)
(* 15. `run` and `sample` on the four shapes                             *)
(* --------------------------------------------------------------------- *)

Ltac foreign_keyword :=
  first [erewrite expectation_unexpected
        | erewrite run_unexpected
        | erewrite sample_unexpected];
    [apply same_outcome_refl | done | by_computation].

Section RunSampleShapes.
Context {C : Carriers} {K : Collaborators}.

Lemma run_int_outcome n b kw r c w :
  Register_init n = Returned r →
  QuantumCircuit_init r b = Returned c →
  same_outcome (run_int n [b] kw w) (run_QuantumCircuit c [] kw w).
Proof.
  intros Hr Hc. unfold run_int. rewrite bind_kwargs_1.
  destruct (kw !! "n_qubits") eqn:Hn; [foreign_keyword|].
  destruct (kw !! "block") eqn:Hb; [foreign_keyword|].
  cbv beta iota zeta.
  rewrite (bind_returned _ _ _ _ _ (Register_returned _ _ _ Hr)).
  eapply same_outcome_trans; [by apply run_Register_outcome|].
  apply same_outcome_after_construction;
    [apply Framed_run_QuantumCircuit | done].
Qed.

Lemma sample_int_outcome n b kw r c w :
  Register_init n = Returned r →
  QuantumCircuit_init r b = Returned c →
  same_outcome (sample_int n [b] kw w) (sample_QuantumCircuit c [] kw w).
Proof.
  intros Hr Hc. unfold sample_int. rewrite bind_kwargs_1.
  destruct (kw !! "n_qubits") eqn:Hn; [foreign_keyword|].
  destruct (kw !! "block") eqn:Hb; [foreign_keyword|].
  cbv beta iota zeta.
  rewrite (bind_returned _ _ _ _ _ (Register_returned _ _ _ Hr)).
  eapply same_outcome_trans; [by apply sample_Register_outcome|].
  apply same_outcome_after_construction;
    [apply Framed_sample_QuantumCircuit | done].
Qed.

Lemma run_AbstractBlock_outcome blk kw r c w :
  Register_init (VInt (n_qubits blk)) = Returned r →
  QuantumCircuit_init r (VBlock blk) = Returned c →
  same_outcome (run_AbstractBlock blk [] kw w)
               (run_QuantumCircuit c [] kw w).
Proof.
  intros Hr Hc. unfold run_AbstractBlock. rewrite bind_kwargs_0.
  destruct (kw !! "block") eqn:Hb; [foreign_keyword|].
  cbv beta iota zeta.
  rewrite (bind_returned _ _ _ _ _ (Register_returned _ _ _ Hr)).
  eapply same_outcome_trans; [by apply run_Register_outcome|].
  apply same_outcome_after_construction;
    [apply Framed_run_QuantumCircuit | done].
Qed.

Lemma sample_AbstractBlock_outcome blk kw r c w :
  Register_init (VInt (n_qubits blk)) = Returned r →
  QuantumCircuit_init r (VBlock blk) = Returned c →
  same_outcome (sample_AbstractBlock blk [] kw w)
               (sample_QuantumCircuit c [] kw w).
Proof.
  intros Hr Hc. unfold sample_AbstractBlock. rewrite bind_kwargs_0.
  destruct (kw !! "block") eqn:Hb; [foreign_keyword|].
  cbv beta iota zeta.
  rewrite (bind_returned _ _ _ _ _ (Register_returned _ _ _ Hr)).
  eapply same_outcome_trans; [by apply sample_Register_outcome|].
  apply same_outcome_after_construction;
    [apply Framed_sample_QuantumCircuit | done].
Qed.

(** X1.  `run` and `sample` treat the four shapes alike.  When
    `Register(n)` returns [r] and `QuantumCircuit(r, b)` returns [c], the
    calls on `(r, b)`, on `(n, b)` and, if [n] is the qubit count of the
    block [b], on `b` alone return or raise what the call on [c] does,
    with the same calls into the backend, whatever the keywords. *)
Theorem run_sample_dispatch_equivalence n r b c kw w :
  Register_init (VInt n) = Returned r →
  QuantumCircuit_init r b = Returned c →
  (same_outcome (run [VRegister r; b] kw w) (run [VQuantumCircuit c] kw w)
   ∧ same_outcome (run [VInt n; b] kw w) (run [VQuantumCircuit c] kw w)
   ∧ (∀ blk, b = VBlock blk → n = n_qubits blk →
        same_outcome (run [VBlock blk] kw w)
                     (run [VQuantumCircuit c] kw w)))
  ∧ (same_outcome (sample [VRegister r; b] kw w)
                  (sample [VQuantumCircuit c] kw w)
     ∧ same_outcome (sample [VInt n; b] kw w)
                    (sample [VQuantumCircuit c] kw w)
     ∧ (∀ blk, b = VBlock blk → n = n_qubits blk →
          same_outcome (sample [VBlock blk] kw w)
                       (sample [VQuantumCircuit c] kw w))).
Proof.
  intros Hr Hc. split; (split; [|split]).
  - by apply run_Register_outcome.
  - by eapply run_int_outcome.
  - intros blk -> ->. by eapply run_AbstractBlock_outcome.
  - by apply sample_Register_outcome.
  - by eapply sample_int_outcome.
  - intros blk -> ->. by eapply sample_AbstractBlock_outcome.
Qed.

End RunSampleShapes.

(* --------------------------------------------------------------------- *)
(* 16. Exceptions raised by the collaborators                            *)
(* --------------------------------------------------------------------- *)

Section Exceptions.
Context {C : Carriers} {K : Collaborators}.

(** X2.  An exception raised by `backend_factory`, by `convert` or by
    the embedding function leaves the circuit overloads as it is: the
    call that raised is the last one made (no later step runs, the
    backend operation least of all), and the gradient mode is the
    caller's again, also when the exception crosses the `no_grad` block
    of `run` or of `expectation` without `diff_mode`. *)
Theorem collaborator_errors_propagate c kw w err :
  let g := grad_enabled w in
  let backend := arg kw "backend" (VBackendName PYQTORCH) in
  let configuration := arg kw "configuration" VNone in
  let values := arg kw "values" (VDict []) in
  let factory := entry (CallBackendFactory backend configuration) g in
  (binds run_params [] kw = true →
   (backend_factory backend configuration = Raised err →
    run [VQuantumCircuit c] kw w = (Raised err, after w [factory]))
   ∧ (∀ bknd,
        backend_factory backend configuration = Returned bknd →
        bknd_convert bknd c None g = Raised err →
        run [VQuantumCircuit c] kw w =
        (Raised err, after w [factory; entry (CallConvert bknd c None) g]))
   ∧ (∀ bknd conv,
        backend_factory backend configuration = Returned bknd →
        bknd_convert bknd c None g = Returned conv →
        embedding_fn conv (conv_params conv) values false = Raised err →
        run [VQuantumCircuit c] kw w =
        (Raised err,
         after w [factory; entry (CallConvert bknd c None) g;
                  entry (CallEmbeddingFn (conv_params conv) values) false])))
  ∧ (binds sample_params [] kw = true →
     (backend_factory backend configuration = Raised err →
      sample [VQuantumCircuit c] kw w = (Raised err, after w [factory]))
     ∧ (∀ bknd,
          backend_factory backend configuration = Returned bknd →
          bknd_convert bknd c None g = Raised err →
          sample [VQuantumCircuit c] kw w =
          (Raised err,
           after w [factory; entry (CallConvert bknd c None) g]))
     ∧ (∀ bknd conv,
          backend_factory backend configuration = Returned bknd →
          bknd_convert bknd c None g = Returned conv →
          embedding_fn conv (conv_params conv) values g = Raised err →
          sample [VQuantumCircuit c] kw w =
          (Raised err,
           after w [factory; entry (CallConvert bknd c None) g;
                    entry (CallEmbeddingFn (conv_params conv) values) g])))
  ∧ (∀ obs,
       let observable := Some (as_list obs) in
       let g' := if is_None (arg kw "diff_mode" VNone) then false else g in
       binds expectation_params [obs] kw = true →
       (backend_factory backend configuration = Raised err →
        expectation [VQuantumCircuit c; obs] kw w =
        (Raised err, after w [factory]))
       ∧ (∀ bknd,
            backend_factory backend configuration = Returned bknd →
            bknd_convert bknd c observable g = Raised err →
            expectation [VQuantumCircuit c; obs] kw w =
            (Raised err,
             after w [factory; entry (CallConvert bknd c observable) g]))
       ∧ (∀ bknd conv,
            backend_factory backend configuration = Returned bknd →
            bknd_convert bknd c observable g = Returned conv →
            embedding_fn conv (conv_params conv) values g' = Raised err →
            expectation [VQuantumCircuit c; obs] kw w =
            (Raised err,
             after w [factory; entry (CallConvert bknd c observable) g;
                      entry (CallEmbeddingFn (conv_params conv) values)
                        g']))).
Proof.
  intros g backend configuration values factory.
  subst g backend configuration values factory.
  split; [|split].
  - intros Hb.
    unfold run, run_QuantumCircuit, mbind, M_bind.
    rewrite bind_defaults_eq, Hb, bound_keywords_only.
    unfold call_backend_factory, call_convert, call_embedding_fn, call_run,
      no_grad, invoke, record, after, entry. simpl.
    split; [|split].
    + by intros ->.
    + intros bknd -> Hc. simpl. rewrite Hc. by rewrite <- !app_assoc.
    + intros bknd conv -> Hc He. simpl. rewrite Hc. simpl. rewrite He.
      simpl. by rewrite <- !app_assoc.
  - intros Hb.
    unfold sample, sample_QuantumCircuit, mbind, M_bind.
    rewrite bind_defaults_eq, Hb, bound_keywords_only.
    unfold call_backend_factory, call_convert, call_embedding_fn,
      call_sample, invoke, record, after, entry. simpl.
    split; [|split].
    + by intros ->.
    + intros bknd -> Hc. simpl. rewrite Hc. by rewrite <- !app_assoc.
    + intros bknd conv -> Hc He. simpl. rewrite Hc. simpl. rewrite He.
      simpl. by rewrite <- !app_assoc.
  - intros obs observable g' Hb. subst observable g'.
    unfold expectation, expectation_QuantumCircuit, mbind, M_bind.
    rewrite bind_defaults_eq, Hb, observable_positional.
    rewrite !arg_after_observable by done.
    unfold call_backend_factory, call_convert, call_embedding_fn,
      call_expectation, no_grad, invoke, record, after, entry. simpl.
    split; [|split].
    + by intros ->.
    + intros bknd -> Hc. simpl. rewrite Hc. by rewrite <- !app_assoc.
    + intros bknd conv -> Hc He. simpl. rewrite Hc.
      destruct (is_None _); simpl; rewrite He; simpl;
        by rewrite <- !app_assoc.
Qed.

End Exceptions.

(* --------------------------------------------------------------------- *)
(* 17. The register and qubit-count forms, as programs                   *)
(* --------------------------------------------------------------------- *)

Section BuildThenCall.
Context {C : Carriers} {K : Collaborators}.

(** X3.  On a register and a block, and on a qubit count and a block,
    each operation is the program "build the register (from the qubit
    count), build the circuit, call the operation on the circuit", step
    for step: an exception raised by `Register` or by `QuantumCircuit` is
    the outcome of the call and no backend is resolved.  (The keywords are
    options of the operation, not names of positional parameters.) *)
Theorem shapes_build_then_call r n b kw w :
  kw !! "register" = None → kw !! "n_qubits" = None →
  kw !! "block" = None →
  (run [VRegister r; b] kw w =
     (circuit ← QuantumCircuit r b; run [VQuantumCircuit circuit] kw) w
   ∧ run [VInt n; b] kw w =
     (reg ← Register (VInt n);
      circuit ← QuantumCircuit reg b;
      run [VQuantumCircuit circuit] kw) w)
  ∧ (sample [VRegister r; b] kw w =
       (circuit ← QuantumCircuit r b; sample [VQuantumCircuit circuit] kw) w
     ∧ sample [VInt n; b] kw w =
       (reg ← Register (VInt n);
        circuit ← QuantumCircuit reg b;
        sample [VQuantumCircuit circuit] kw) w)
  ∧ (∀ obs, kw !! "observable" = None →
       expectation [VRegister r; b; obs] kw w =
         (circuit ← QuantumCircuit r b;
          expectation [VQuantumCircuit circuit; obs] kw) w
       ∧ expectation [VInt n; b; obs] kw w =
         (reg ← Register (VInt n);
          circuit ← QuantumCircuit reg b;
          expectation [VQuantumCircuit circuit; obs] kw) w).
Proof.
  intros Hr Hn Hb. split; [|split].
  - split.
    + unfold run at 1, run_Register. by rewrite bind_kwargs_1, Hr, Hb.
    + unfold run at 1, run_int. rewrite bind_kwargs_1, Hn, Hb.
      cbv beta iota zeta. apply bind_ext. intros reg w'.
      unfold run_Register. by rewrite bind_kwargs_1, Hr, Hb.
  - split.
    + unfold sample at 1, sample_Register. by rewrite bind_kwargs_1, Hr, Hb.
    + unfold sample at 1, sample_int. rewrite bind_kwargs_1, Hn, Hb.
      cbv beta iota zeta. apply bind_ext. intros reg w'.
      unfold sample_Register. by rewrite bind_kwargs_1, Hr, Hb.
  - intros obs Ho. split.
    + unfold expectation at 1, expectation_Register.
      by rewrite bind_kwargs_2, Hr, Hb, Ho.
    + unfold expectation at 1, expectation_int.
      by rewrite bind_kwargs_2, Hn, Hb, Ho.
Qed.

End BuildThenCall.

(* --------------------------------------------------------------------- *)
(* 18. `diff_mode`                                                       *)
(* --------------------------------------------------------------------- *)

Section DiffMode.
Context {C : Carriers} {K : Collaborators}.

Lemma Emits_bind_kwargs_then {A} P first names pos kw
    (f : list Value * gmap string Value → M A) :
  (∀ vs kwargs, bind_required names pos kw = Some (vs, kwargs) →
                Emits P (f (vs, kwargs))) →
  Emits P (bind_kwargs first names pos kw ≫= f).
Proof.
  intros Hf w. unfold mbind, M_bind, bind_kwargs.
  destruct (kw !! first); [exists []; by rewrite app_nil_r|].
  destruct (bind_required names pos kw) as [[vs kwargs]|] eqn:E.
  - by apply Hf.
  - exists []. by rewrite app_nil_r.
Qed.

(** Parameters passed positionally leave the keywords as they are. *)
Lemma bind_required_positional names pos (kw : gmap string Value) vs kwargs :
  length pos = length names →
  bind_required names pos kw = Some (vs, kwargs) → vs = pos ∧ kwargs = kw.
Proof.
  revert pos vs. induction names as [|p names IH]; intros [|v pos] vs Hl;
    simpl in *; try done.
  - by intros [= <- <-].
  - destruct (kw !! p); [done|].
    destruct (bind_required names pos kw) as [[vs' kwargs']|] eqn:E; [|done].
    simpl. intros [= <- <-].
    destruct (IH pos vs' ltac:(lia) E) as [-> ->]. done.
Qed.

(** X4.  On each of the four shapes, `expectation` keeps the gradient
    discipline of its circuit overload: with `diff_mode` absent or None
    the embedding and `bknd.expectation` run with gradient tracking off,
    with any other `diff_mode` in the caller's mode; the register and the
    circuit are built in the caller's mode, which is also the mode the
    call leaves behind. *)
Theorem expectation_grad_mode_on_shapes (s : Shape) obs kw :
  Emits (tensor_calls_at (λ g,
           if is_None (arg kw "diff_mode" VNone) then false else g))
        (expectation (positional s ++ [obs]) kw).
Proof.
  assert (∀ c, Emits (tensor_calls_at (λ g,
                 if is_None (arg kw "diff_mode" VNone) then false else g))
               (expectation_QuantumCircuit c [obs] kw)) as HE.
  { intros c. pose proof (Emits_expectation_QuantumCircuit c [obs] kw) as HE.
    by rewrite arg_after_observable in HE. }
  destruct s as [c|r b|n b|blk]; simpl.
  - apply HE.
  - unfold expectation_Register. apply Emits_bind_kwargs_then.
    intros vs kwargs [-> ->]%bind_required_positional; [|done].
    emits_using ltac:(apply HE).
  - unfold expectation_int. apply Emits_bind_kwargs_then.
    intros vs kwargs [-> ->]%bind_required_positional; [|done].
    emits_using ltac:(apply HE).
  - unfold expectation_AbstractBlock. apply Emits_bind_kwargs_then.
    intros vs kwargs [-> ->]%bind_required_positional; [|done].
    emits_using ltac:(apply HE).
Qed.

Lemma arg_insert_same (kw : gmap string Value) name v dflt :
  arg (<[name := v]> kw) name dflt = v.
Proof. unfold arg. by rewrite lookup_insert_eq. Qed.

Lemma expectation_QuantumCircuit_diff_mode c obs kw d d' w :
  is_None d = is_None d' →
  expectation_QuantumCircuit c [obs] (<["diff_mode" := d]> kw) w
  = expectation_QuantumCircuit c [obs] (<["diff_mode" := d']> kw) w.
Proof.
  intros Hd. unfold expectation_QuantumCircuit, mbind, M_bind.
  rewrite !bind_defaults_eq.
  rewrite (binds_dom _ _ (<["diff_mode" := d]> kw)
             (<["diff_mode" := d']> kw))
    by (by rewrite !dom_insert_L).
  destruct (binds _ _ _); [|done].
  rewrite !observable_positional, !arg_after_observable by done.
  rewrite !arg_insert_same, !arg_insert_other by done.
  by rewrite Hd.
Qed.

(** X5.  `expectation` only asks of `diff_mode` whether it is None.  On
    each of the four shapes, two values that are both None or both
    something else (`DiffMode.AD`, `DiffMode.GPSR`, a string, ...) give
    the same computation: the same calls with the same arguments in the
    same gradient modes, and the same outcome.  The value reaches neither
    `backend_factory` nor the backend. *)
Theorem diff_mode_only_tested_for_None (s : Shape) obs kw d d' w :
  is_None d = is_None d' →
  expectation (positional s ++ [obs]) (<["diff_mode" := d]> kw) w
  = expectation (positional s ++ [obs]) (<["diff_mode" := d']> kw) w.
Proof.
  intros Hd. destruct s as [c|r b|n b|blk]; simpl.
  - by apply expectation_QuantumCircuit_diff_mode.
  - unfold expectation_Register. rewrite !bind_kwargs_2.
    rewrite !lookup_insert_ne by done.
    repeat case_match; try done. cbv beta iota zeta.
    apply bind_ext. intros circuit w'.
    by apply expectation_QuantumCircuit_diff_mode.
  - unfold expectation_int. rewrite !bind_kwargs_2.
    rewrite !lookup_insert_ne by done.
    repeat case_match; try done. cbv beta iota zeta.
    apply bind_ext. intros reg w'. apply bind_ext. intros circuit w''.
    by apply expectation_QuantumCircuit_diff_mode.
  - unfold expectation_AbstractBlock. rewrite !bind_kwargs_1.
    rewrite !lookup_insert_ne by done.
    repeat case_match; try done. cbv beta iota zeta.
    apply bind_ext. intros reg w'. apply bind_ext. intros circuit w''.
    by apply expectation_QuantumCircuit_diff_mode.
Qed.

End DiffMode.

(* --------------------------------------------------------------------- *)
(* 19. Options passed positionally                                       *)
(* --------------------------------------------------------------------- *)

Section PositionalOptions.
Context {C : Carriers} {K : Collaborators}.



(** More positional arguments than parameters do not bind. *)
Lemma bind_required_too_many names pos (kw : gmap string Value) :
  (length names < length pos)%nat → bind_required names pos kw = None.
Proof.
  revert pos. induction names as [|p names IH]; intros [|v pos] Hl;
    simpl in *; try lia; [done|].
  destruct (kw !! p); [done|]. rewrite IH by lia. done.
Qed.

Lemma bind_kwargs_too_many {A} first names pos kw
    (f : list Value * gmap string Value → M A) w :
  (length names < length pos)%nat →
  (bind_kwargs first names pos kw ≫= f) w = (Raised TypeError, w).
Proof.
  intros Hl. unfold bind_kwargs, mbind, M_bind.
  rewrite bind_required_too_many by done. by destruct (kw !! first).
Qed.

(** X7.  The register, qubit-count and block overloads take their
    options as keywords only.  One positional argument more than the
    register (or qubit count), the block and, for `expectation`, the
    observable is a TypeError, raised before `Register` or
    `QuantumCircuit` is called. *)
Theorem extra_positional_rejected r n b blk x extra kw w :
  (run (VRegister r :: b :: x :: extra) kw w = (Raised TypeError, w)
   ∧ run (VInt n :: b :: x :: extra) kw w = (Raised TypeError, w)
   ∧ run (VBlock blk :: x :: extra) kw w = (Raised TypeError, w))
  ∧ (sample (VRegister r :: b :: x :: extra) kw w = (Raised TypeError, w)
     ∧ sample (VInt n :: b :: x :: extra) kw w = (Raised TypeError, w)
     ∧ sample (VBlock blk :: x :: extra) kw w = (Raised TypeError, w))
  ∧ (∀ obs,
       expectation (VRegister r :: b :: obs :: x :: extra) kw w
       = (Raised TypeError, w)
       ∧ expectation (VInt n :: b :: obs :: x :: extra) kw w
         = (Raised TypeError, w)
       ∧ expectation (VBlock blk :: obs :: x :: extra) kw w
         = (Raised TypeError, w)).
Proof.
  repeat split; intros;
    apply bind_kwargs_too_many; simpl; lia.
Qed.

End PositionalOptions.

(* --------------------------------------------------------------------- *)
(* 20. Calls that are rejected                                           *)
(* --------------------------------------------------------------------- *)

Section Rejected.
Context {C : Carriers} {K : Collaborators}.

Lemma Rejects_raise {A} err : Rejects (raise (A:=A) err).
Proof. intros w. by exists err. Qed.

Lemma Rejects_ext {A} (m m' : M A) :
  (∀ w, m w = m' w) → Rejects m' → Rejects m.
Proof. intros Hm Hr w. rewrite Hm. apply Hr. Qed.

(** Building a register or a circuit first does not make a rejected call
    reach a backend. *)
Lemma Rejects_construction {A B} c (f : bool → Outcome A) (k : A → M B) :
  is_construction c = true → (∀ a, Rejects (k a)) →
  Rejects (invoke c f ≫= k).
Proof.
  intros Hc Hk w. unfold mbind, M_bind. rewrite invoke_eq.
  assert (backend_calls (trace (record c w)) = backend_calls (trace w))
    as Hrec.
  { unfold record, backend_calls. simpl.
    rewrite filter_app, filter_cons_False, filter_nil, app_nil_r;
      [done | simpl; by rewrite Hc]. }
  destruct (f (grad_enabled w)) as [a|err].
  - destruct (Hk a (record c w)) as (err & Hr & Ht). exists err.
    by rewrite Hr, Ht.
  - by exists err.
Qed.

Lemma Rejects_run_QuantumCircuit c (kw : gmap string Value) k v :
  kw !! k = Some v → k ∉ run_params → Rejects (run_QuantumCircuit c [] kw).
Proof.
  intros Hk Hn w. rewrite (run_unexpected _ _ k v) by done.
  by exists TypeError.
Qed.

Lemma Rejects_sample_QuantumCircuit c (kw : gmap string Value) k v :
  kw !! k = Some v → k ∉ sample_params →
  Rejects (sample_QuantumCircuit c [] kw).
Proof.
  intros Hk Hn w. rewrite (sample_unexpected _ _ k v) by done.
  by exists TypeError.
Qed.

Lemma Rejects_expectation_QuantumCircuit c obs (kw : gmap string Value) k v :
  kw !! k = Some v → k ∉ drop 1 expectation_params →
  Rejects (expectation_QuantumCircuit c [obs] kw).
Proof.
  intros Hk Hn w. rewrite (expectation_unexpected _ _ _ k v) by done.
  by exists TypeError.
Qed.

Ltac rejects_using lem :=
  repeat first
    [ apply Rejects_raise
    | apply lem
    | apply Rejects_construction; [reflexivity | intros ?]
    | case_match ].

(** X9.  A keyword that is not an option of the operation never reaches
    a backend.  On each of the four shapes the call raises (a TypeError,
    unless `Register` or `QuantumCircuit` raised first) and neither
    `backend_factory` nor any method of a backend has been called.  So
    `run(circuit, n_shots=10)`, `sample(block, diff_mode="ad")` or a
    misspelt `expectation(n, block, obs, value={})` cost no simulation. *)
Theorem foreign_keyword_never_reaches_backend (s : Shape) kw k v :
  kw !! k = Some v →
  (k ∉ run_params → Rejects (run (positional s) kw))
  ∧ (k ∉ sample_params → Rejects (sample (positional s) kw))
  ∧ (∀ obs, k ∉ drop 1 expectation_params →
       Rejects (expectation (positional s ++ [obs]) kw)).
Proof.
  intros Hk. split; [|split].
  - intros Hn.
    pose proof (λ c, Rejects_run_QuantumCircuit c kw k v Hk Hn) as HQ.
    assert (∀ r b, Rejects (run_Register r [b] kw)) as HR.
    { intros r b. eapply Rejects_ext; [intros w; apply bind_kwargs_1|].
      unfold QuantumCircuit. rejects_using HQ. }
    destruct s as [c|r b|n b|blk]; simpl; [apply HQ | apply HR | |].
    + eapply Rejects_ext; [intros w; apply bind_kwargs_1|].
      unfold Register. rejects_using HR.
    + eapply Rejects_ext; [intros w; apply bind_kwargs_0|].
      unfold Register. rejects_using HR.
  - intros Hn.
    pose proof (λ c, Rejects_sample_QuantumCircuit c kw k v Hk Hn) as HQ.
    assert (∀ r b, Rejects (sample_Register r [b] kw)) as HR.
    { intros r b. eapply Rejects_ext; [intros w; apply bind_kwargs_1|].
      unfold QuantumCircuit. rejects_using HQ. }
    destruct s as [c|r b|n b|blk]; simpl; [apply HQ | apply HR | |].
    + eapply Rejects_ext; [intros w; apply bind_kwargs_1|].
      unfold Register. rejects_using HR.
    + eapply Rejects_ext; [intros w; apply bind_kwargs_0|].
      unfold Register. rejects_using HR.
  - intros obs Hn.
    pose proof (λ c, Rejects_expectation_QuantumCircuit c obs kw k v Hk Hn)
      as HQ.
    destruct s as [c|r b|n b|blk]; simpl; [apply HQ | | |].
    + eapply Rejects_ext; [intros w; apply bind_kwargs_2|].
      unfold QuantumCircuit. rejects_using HQ.
    + eapply Rejects_ext; [intros w; apply bind_kwargs_2|].
      unfold Register, QuantumCircuit. rejects_using HQ.
    + eapply Rejects_ext; [intros w; apply bind_kwargs_1|].
      unfold Register, QuantumCircuit. rejects_using HQ.
Qed.

(** A parameter without default that gets neither a positional argument
    nor a keyword does not bind. *)
Lemma bind_required_missing names pos (kw : gmap string Value) p :
  names !! length pos = Some p → kw !! p = None →
  bind_required names pos kw = None.
Proof.
  revert pos. induction names as [|q names IH]; intros [|v pos] Hp Hk;
    simpl in *; try done.
  - injection Hp as ->. by rewrite Hk.
  - destruct (kw !! q); [done|]. by rewrite (IH pos).
Qed.

Lemma bind_kwargs_missing {A} first names pos kw p
    (f : list Value * gmap string Value → M A) w :
  names !! length pos = Some p → kw !! p = None →
  (bind_kwargs first names pos kw ≫= f) w = (Raised TypeError, w).
Proof.
  intros Hp Hk. unfold bind_kwargs, mbind, M_bind.
  rewrite (bind_required_missing _ _ _ p) by done.
  by destruct (kw !! first).
Qed.

(** X8.  A call that lacks the block, or lacks the observable, is a
    TypeError raised before anything is built or asked of a backend:
    `run(register)`, `sample(n_qubits)`, `expectation(circuit)`,
    `expectation(register, block)`, `expectation(block)` and alike, as
    long as the missing argument is not given as a keyword either. *)
Theorem missing_argument_rejected r n c b blk kw w :
  (kw !! "block" = None →
   run [VRegister r] kw w = (Raised TypeError, w)
   ∧ run [VInt n] kw w = (Raised TypeError, w)
   ∧ sample [VRegister r] kw w = (Raised TypeError, w)
   ∧ sample [VInt n] kw w = (Raised TypeError, w)
   ∧ expectation [VRegister r] kw w = (Raised TypeError, w)
   ∧ expectation [VInt n] kw w = (Raised TypeError, w))
  ∧ (kw !! "observable" = None →
     expectation [VQuantumCircuit c] kw w = (Raised TypeError, w)
     ∧ expectation [VRegister r; b] kw w = (Raised TypeError, w)
     ∧ expectation [VInt n; b] kw w = (Raised TypeError, w)
     ∧ expectation [VBlock blk] kw w = (Raised TypeError, w)).
Proof.
  split.
  - intros Hb.
    repeat split; by apply (bind_kwargs_missing _ _ _ _ "block").
  - intros Ho. split.
    + unfold expectation, expectation_QuantumCircuit, mbind, M_bind.
      rewrite bind_defaults_eq, bound_keywords_only.
      destruct (binds _ _ _); [|done]. by rewrite Ho.
    + repeat split; by apply (bind_kwargs_missing _ _ _ _ "observable").
Qed.

End Rejected.

(* --------------------------------------------------------------------- *)
(* 21. Gradient tracking is never switched on                            *)
(* --------------------------------------------------------------------- *)

Section NeverEnabled.
Context {C : Carriers} {K : Collaborators}.

Lemma tensor_calls_at_or_off mode g e :
  (mode g = g ∨ mode g = false) →
  tensor_calls_at mode g e → grad e = g ∨ grad e = false.
Proof.
  unfold tensor_calls_at. intros Hm ->.
  destruct (is_tensor_call (call e)); [done | by left].
Qed.

Lemma Emits_expectation_or_off c pos kw :
  Emits (λ g e, grad e = g ∨ grad e = false)
        (expectation_QuantumCircuit c pos kw).
Proof.
  eapply Emits_mono; [|apply Emits_expectation_QuantumCircuit].
  intros g e. apply tensor_calls_at_or_off.
  destruct (is_None _); [by right | by left].
Qed.

(** X11.  None of the three operations ever switches gradient tracking
    on.  Whatever the arguments, every call it makes into a collaborator
    is made either in the gradient mode of the caller or with tracking
    off, and the caller's mode is in place again when the operation
    returns or raises: under a caller's `torch.no_grad()` nothing tracks
    gradients, `diff_mode` or not. *)
Theorem gradient_tracking_never_enabled args kw :
  Emits (λ g e, grad e = g ∨ grad e = false) (run args kw)
  ∧ Emits (λ g e, grad e = g ∨ grad e = false) (sample args kw)
  ∧ Emits (λ g e, grad e = g ∨ grad e = false) (expectation args kw).
Proof.
  split; [|split].
  - eapply Emits_mono; [|apply Emits_run].
    intros g e. apply tensor_calls_at_or_off. by right.
  - eapply Emits_mono; [|apply Emits_sample].
    intros g e. apply tensor_calls_at_or_off. by left.
  - unfold expectation, expectation_object, expectation_AbstractBlock,
      expectation_int, expectation_Register.
    emits_using ltac:(first [ apply Emits_expectation_or_off
                            | apply Emits_invoke; intros ?; by left ]).
Qed.

End NeverEnabled.

(* --------------------------------------------------------------------- *)
(* 22. The further properties, on the stand-ins                          *)
(* --------------------------------------------------------------------- *)

Section OnTheStrictStub.
#[local] Existing Instance Stub.carriers.
#[local] Existing Instance StrictStub.collaborators.
Import Stub.

(** `run` and `sample` on `Register(2)`, on 2 and on the block Z(1). *)
Lemma run_sample_dispatch_equivalence_witness :
  Register_init (VInt 2) = Returned 2
  ∧ QuantumCircuit_init 2 (VBlock Z1) = Returned 2
  ∧ (same_outcome (run [VRegister 2; VBlock Z1] ∅ w0)
                  (run [VQuantumCircuit 2] ∅ w0)
     ∧ same_outcome (run [VInt 2; VBlock Z1] ∅ w0)
                    (run [VQuantumCircuit 2] ∅ w0)
     ∧ same_outcome (run [VBlock Z1] ∅ w0) (run [VQuantumCircuit 2] ∅ w0))
  ∧ (same_outcome (sample [VRegister 2; VBlock Z1] ∅ w0)
                  (sample [VQuantumCircuit 2] ∅ w0)
     ∧ same_outcome (sample [VInt 2; VBlock Z1] ∅ w0)
                    (sample [VQuantumCircuit 2] ∅ w0)
     ∧ same_outcome (sample [VBlock Z1] ∅ w0)
                    (sample [VQuantumCircuit 2] ∅ w0)).
Proof.
  split; [reflexivity|]. split; [reflexivity|].
  destruct (run_sample_dispatch_equivalence (K:=StrictStub.collaborators)
              2 2 (VBlock Z1) 2 ∅ w0 eq_refl eq_refl)
    as [(Hr & Hn & Hb) (Hr' & Hn' & Hb')].
  split; (split; [|split]);
    [exact Hr | exact Hn | exact (Hb Z1 eq_refl eq_refl)
    | exact Hr' | exact Hn' | exact (Hb' Z1 eq_refl eq_refl)].
Defined.

(** An unknown backend, a circuit of 31 qubits, and `values=3`. *)
Lemma collaborator_errors_propagate_witness :
  (run [VQuantumCircuit 2] {[ "backend" := VStr "braket" ]} w0 =
     (Raised (Thrown "backend"),
      after w0 [entry (CallBackendFactory (VStr "braket") VNone) true])
   ∧ run [VQuantumCircuit 31] ∅ w0 =
     (Raised (Thrown "too many qubits"),
      after w0 [entry (CallBackendFactory (VBackendName PYQTORCH) VNone)
                  true;
                entry (CallConvert PYQTORCH 31 None) true])
   ∧ run [VQuantumCircuit 2] {[ "values" := VInt 3 ]} w0 =
     (Raised (Thrown "values"),
      after w0 [entry (CallBackendFactory (VBackendName PYQTORCH) VNone)
                  true;
                entry (CallConvert PYQTORCH 2 None) true;
                entry (CallEmbeddingFn () (VInt 3)) false]))
  ∧ (sample [VQuantumCircuit 2] {[ "backend" := VStr "braket" ]} w0 =
       (Raised (Thrown "backend"),
        after w0 [entry (CallBackendFactory (VStr "braket") VNone) true])
     ∧ sample [VQuantumCircuit 31] ∅ w0 =
       (Raised (Thrown "too many qubits"),
        after w0 [entry (CallBackendFactory (VBackendName PYQTORCH) VNone)
                    true;
                  entry (CallConvert PYQTORCH 31 None) true])
     ∧ sample [VQuantumCircuit 2] {[ "values" := VInt 3 ]} w0 =
       (Raised (Thrown "values"),
        after w0 [entry (CallBackendFactory (VBackendName PYQTORCH) VNone)
                    true;
                  entry (CallConvert PYQTORCH 2 None) true;
                  entry (CallEmbeddingFn () (VInt 3)) true]))
  ∧ (expectation [VQuantumCircuit 2; VBlock Z1]
       {[ "backend" := VStr "braket" ]} w0 =
       (Raised (Thrown "backend"),
        after w0 [entry (CallBackendFactory (VStr "braket") VNone) true])
     ∧ expectation [VQuantumCircuit 31; VBlock Z1] ∅ w0 =
       (Raised (Thrown "too many qubits"),
        after w0 [entry (CallBackendFactory (VBackendName PYQTORCH) VNone)
                    true;
                  entry (CallConvert PYQTORCH 31 (Some [VBlock Z1])) true])
     ∧ expectation [VQuantumCircuit 2; VBlock Z1]
         {[ "values" := VInt 3 ]} w0 =
       (Raised (Thrown "values"),
        after w0 [entry (CallBackendFactory (VBackendName PYQTORCH) VNone)
                    true;
                  entry (CallConvert PYQTORCH 2 (Some [VBlock Z1])) true;
                  entry (CallEmbeddingFn () (VInt 3)) false])).
Proof.
  pose (conv n := {| conv_circuit := 2; conv_observable := n;
                     embedding_fn := stub_embedding_fn;
                     conv_params := () |}).
  pose proof (collaborator_errors_propagate (K:=StrictStub.collaborators)
                2 {[ "backend" := VStr "braket" ]} w0 (Thrown "backend"))
    as (Hr1 & Hs1 & He1).
  pose proof (collaborator_errors_propagate (K:=StrictStub.collaborators)
                31 ∅ w0 (Thrown "too many qubits")) as (Hr2 & Hs2 & He2).
  pose proof (collaborator_errors_propagate (K:=StrictStub.collaborators)
                2 {[ "values" := VInt 3 ]} w0 (Thrown "values"))
    as (Hr3 & Hs3 & He3).
  split; [|split]; (split; [|split]).
  - exact (proj1 (Hr1 eq_refl) eq_refl).
  - exact (proj1 (proj2 (Hr2 eq_refl)) PYQTORCH eq_refl eq_refl).
  - exact (proj2 (proj2 (Hr3 eq_refl)) PYQTORCH (conv 0%nat)
             eq_refl eq_refl eq_refl).
  - exact (proj1 (Hs1 eq_refl) eq_refl).
  - exact (proj1 (proj2 (Hs2 eq_refl)) PYQTORCH eq_refl eq_refl).
  - exact (proj2 (proj2 (Hs3 eq_refl)) PYQTORCH (conv 0%nat)
             eq_refl eq_refl eq_refl).
  - exact (proj1 (He1 (VBlock Z1) eq_refl) eq_refl).
  - exact (proj1 (proj2 (He2 (VBlock Z1) eq_refl)) PYQTORCH
             eq_refl eq_refl).
  - exact (proj2 (proj2 (He3 (VBlock Z1) eq_refl)) PYQTORCH (conv 1%nat)
             eq_refl eq_refl eq_refl).
Defined.

(** `run(0, X(0))` and its siblings stop at `Register(0)`. *)
Lemma shapes_build_then_call_witness :
  (∅ : gmap string Value) !! "register" = None
  ∧ (∅ : gmap string Value) !! "n_qubits" = None
  ∧ (∅ : gmap string Value) !! "block" = None
  ∧ (∅ : gmap string Value) !! "observable" = None
  ∧ run [VInt 0; VBlock X0] ∅ w0 =
      (reg ← Register (VInt 0);
       circuit ← QuantumCircuit reg (VBlock X0);
       run [VQuantumCircuit circuit] ∅) w0
  ∧ run [VInt 0; VBlock X0] ∅ w0 =
      (Raised (Thrown "support"), after w0 [entry (CallRegister (VInt 0)) true])
  ∧ sample [VRegister 1; VBlock Z1] ∅ w0 =
      (circuit ← QuantumCircuit 1 (VBlock Z1);
       sample [VQuantumCircuit circuit] ∅) w0
  ∧ sample [VRegister 1; VBlock Z1] ∅ w0 =
      (Raised (Thrown "qubit support"),
       after w0 [entry (CallQuantumCircuit 1 (VBlock Z1)) true])
  ∧ expectation [VInt 0; VBlock X0; VBlock Z1] ∅ w0 =
      (reg ← Register (VInt 0);
       circuit ← QuantumCircuit reg (VBlock X0);
       expectation [VQuantumCircuit circuit; VBlock Z1] ∅) w0.
Proof.
  do 4 (split; [reflexivity|]).
  pose proof (shapes_build_then_call (K:=StrictStub.collaborators)
                1 0 (VBlock X0) ∅ w0) as H1.
  pose proof (shapes_build_then_call (K:=StrictStub.collaborators)
                1 0 (VBlock Z1) ∅ w0) as H2.
  destruct (H1 eq_refl eq_refl eq_refl) as ([_ Hr] & _ & He).
  destruct (H2 eq_refl eq_refl eq_refl) as (_ & [Hs _] & _).
  split; [exact Hr|]. split; [rewrite Hr; reflexivity|].
  split; [exact Hs|]. split; [rewrite Hs; reflexivity|].
  exact (proj2 (He (VBlock Z1) eq_refl)).
Defined.

(** `diff_mode=DiffMode.AD` against `diff_mode=DiffMode.GPSR`. *)
Lemma diff_mode_only_tested_for_None_witness :
  is_None (VDiffMode AD) = is_None (VDiffMode GPSR)
  ∧ expectation [VInt 2; VBlock X0; VBlock Z1]
      (<["diff_mode" := VDiffMode AD]> ∅) w0
    = expectation [VInt 2; VBlock X0; VBlock Z1]
        (<["diff_mode" := VDiffMode GPSR]> ∅) w0.
Proof.
  split; [reflexivity|].
  exact (diff_mode_only_tested_for_None (K:=StrictStub.collaborators)
           (OfInt 2 (VBlock X0)) (VBlock Z1) ∅ (VDiffMode AD)
           (VDiffMode GPSR) w0 eq_refl).
Defined.


(** `run(register)`, `expectation(circuit)`, `expectation(block)`, ... *)
Lemma missing_argument_rejected_witness :
  (∅ : gmap string Value) !! "block" = None
  ∧ (∅ : gmap string Value) !! "observable" = None
  ∧ (run [VRegister 2] ∅ w0 = (Raised TypeError, w0)
     ∧ run [VInt 2] ∅ w0 = (Raised TypeError, w0)
     ∧ sample [VRegister 2] ∅ w0 = (Raised TypeError, w0)
     ∧ sample [VInt 2] ∅ w0 = (Raised TypeError, w0)
     ∧ expectation [VRegister 2] ∅ w0 = (Raised TypeError, w0)
     ∧ expectation [VInt 2] ∅ w0 = (Raised TypeError, w0))
  ∧ (expectation [VQuantumCircuit 2] ∅ w0 = (Raised TypeError, w0)
     ∧ expectation [VRegister 2; VBlock X0] ∅ w0 = (Raised TypeError, w0)
     ∧ expectation [VInt 2; VBlock X0] ∅ w0 = (Raised TypeError, w0)
     ∧ expectation [VBlock X0] ∅ w0 = (Raised TypeError, w0)).
Proof.
  do 2 (split; [reflexivity|]).
  destruct (missing_argument_rejected (K:=StrictStub.collaborators)
              2 2 2 (VBlock X0) X0 ∅ w0) as [Hb Ho].
  split; [exact (Hb eq_refl) | exact (Ho eq_refl)].
Defined.

(** `run(circuit, n_shots=10)`, `sample(block, diff_mode="ad")` and the
    misspelt `expectation(2, block, obs, value={})`. *)
Lemma foreign_keyword_never_reaches_backend_witness :
  Rejects (run [VQuantumCircuit 2] {[ "n_shots" := VInt 10 ]})
  ∧ Rejects (sample [VBlock Z1] {[ "diff_mode" := VStr "ad" ]})
  ∧ Rejects (expectation [VInt 2; VBlock X0; VBlock Z1]
               {[ "value" := VDict [] ]}).
Proof.
  pose proof (foreign_keyword_never_reaches_backend
                (K:=StrictStub.collaborators) (OfCircuit 2)
                {[ "n_shots" := VInt 10 ]} "n_shots" (VInt 10)) as H1.
  pose proof (foreign_keyword_never_reaches_backend
                (K:=StrictStub.collaborators) (OfBlock Z1)
                {[ "diff_mode" := VStr "ad" ]} "diff_mode" (VStr "ad"))
    as H2.
  pose proof (foreign_keyword_never_reaches_backend
                (K:=StrictStub.collaborators) (OfInt 2 (VBlock X0))
                {[ "value" := VDict [] ]} "value" (VDict [])) as H3.
  split; [|split].
  - apply (proj1 (H1 eq_refl)). by_computation.
  - apply (proj1 (proj2 (H2 eq_refl))). by_computation.
  - apply (proj2 (proj2 (H3 eq_refl)) (VBlock Z1)). by_computation.
Defined.

(** What the last of these calls leaves behind: a register and a circuit
    were built, no backend was resolved. *)
Example trace_of_misspelt_keyword :
  expectation [VInt 2; VBlock X0; VBlock Z1] {[ "value" := VDict [] ]} w0 =
  (Raised TypeError,
   after w0 [entry (CallRegister (VInt 2)) true;
             entry (CallQuantumCircuit 2 (VBlock X0)) true]).
Proof. vm_compute. reflexivity. Qed.

End OnTheStrictStub.
